(** * LocalAIAgentWithRAG: the vector-store manager and its rebuild boundary

    A shallow embedding of [src/vector.py] (class [VectorDBManager]) and of
    the functions of [src/main.py] that drive it: [rebuild_vector_db] with
    the globals it assigns, [query_restaurant] and [load_config].

    The program is stateful and fallible, so the embedding is a small state
    and exception monad over the part of the process the code touches: the
    paths present on disk, the persisted collections of the vector index
    engine, and the records emitted through [logging].  File readers, the
    path resolver and the engine's failure behaviour are external to the
    repository; they are collected in a record [World] that every function
    takes as a parameter. *)

From Stdlib Require Import String Ascii List ZArith Lia Bool.
From stdpp Require Import base option list strings gmap pretty.
Import ListNotations.
Local Open Scope string_scope.

(** ** Exceptions and results *)

(** The Python exception classes the code raises or lets through.  The
    string is what [str(e)] returns.  [OtherError] stands for every other
    subclass of [Exception] an external reader or the engine may raise; it
    carries the class name next to the message. *)
Inductive Exception : Type :=
  | FileNotFoundError (msg : string)
  | ValueError (msg : string)
  | OtherError (cls : string) (msg : string).

Definition str_exc (e : Exception) : string :=
  match e with
  | FileNotFoundError m => m
  | ValueError m => m
  | OtherError _ m => m
  end.

Inductive Result (A : Type) : Type :=
  | Ok (a : A)
  | Raise (e : Exception).
Arguments Ok {A} a.
Arguments Raise {A} e.

(** ** Data model *)

(** Metadata values: the code stores an int under ["page"] and strings
    under ["source"] and ["type"]. *)
Inductive Scalar : Type :=
  | SInt (z : Z)
  | SStr (s : string).

(** [langchain_core.documents.Document] as the code builds it. *)
Record Document : Type := mkDocument {
  page_content : string;
  metadata : gmap string Scalar;
  id : string
}.

(** What [json.load] returns.  A float is carried by its literal, since the
    code only tests the root's shape and prints values. *)
#[local] Unset Elimination Schemes.
Inductive Json : Type :=
  | JNull
  | JBool (b : bool)
  | JInt (z : Z)
  | JFloat (literal : string)
  | JStr (s : string)
  | JList (items : list Json)
  | JDict (fields : list (string * Json)).
#[local] Set Elimination Schemes.

Inductive Level : Type := INFO | ERROR.

(** The retriever object: a handle on a collection with its search
    arguments ([search_kwargs={"k": 5}]). *)
Record Retriever : Type := mkRetriever {
  r_collection_name : string;
  r_persist_directory : string;
  r_k : nat
}.

(** ** The world outside the repository *)

(** Everything the code calls but does not define.
    - [resolve_error p] is the exception [Path(p).resolve()] raises, when
      it raises (an embedded NUL byte, a symlink loop), and [resolve p] is
      the string [str(Path(p).resolve())] otherwise;
    - [read_text p] is [open(p)] followed by [f.read()];
    - [json_load p] is [open(p)] followed by [json.load(f)];
    - [pdf_pages p] is [PdfReader(p)] and [extract_text()] on each of its
      pages, in page order;
    - [py_str] and [json_dumps] are [str(item)] and
      [json.dumps(data, indent=2)];
    - [chroma_init_error dir] and [chroma_add_error dir docs] say when the
      engine's constructor and [add_documents] raise, and
      [chroma_init_leaves_dir dir] says whether a constructor that raises
      has created the storage location by then. *)
Record World : Type := mkWorld {
  resolve_error : string -> option Exception;
  resolve : string -> string;
  read_text : string -> Result string;
  json_load : string -> Result Json;
  pdf_pages : string -> Result (list string);
  py_str : Json -> string;
  json_dumps : Json -> string;
  chroma_init_error : string -> option Exception;
  chroma_init_leaves_dir : string -> bool;
  chroma_add_error : string -> list Document -> option Exception
}.

(** The mutable part of the process.
    - [disk] is the set of path spellings for which [os.path.exists]
      answers [True]; spellings are members on their own, so another
      spelling of a path, or a directory above it, is a separate member;
    - [chroma] maps a persist directory to the documents stored there;
    - [ingestions] is the history of successful [add_documents] calls;
    - [log] is what went through [logger], oldest first. *)
Record State : Type := mkState {
  disk : gset string;
  chroma : gmap string (list Document);
  ingestions : list (string * list Document);
  log : list (Level * string)
}.

(** ** A state and exception monad

    A raised exception keeps the state reached so far: records already
    logged and directories already created stay. *)
Definition M (A : Type) : Type := State -> Result A * State.

Definition ret {A} (a : A) : M A := fun st => (Ok a, st).

Definition bind {A B} (c : M A) (k : A -> M B) : M B :=
  fun st =>
    match c st with
    | (Ok a, st') => k a st'
    | (Raise e, st') => (Raise e, st')
    end.

Definition raise {A} (e : Exception) : M A := fun st => (Raise e, st).

(** [try: c except Exception as e: h e] *)
Definition try_except {A} (c : M A) (h : Exception -> M A) : M A :=
  fun st =>
    match c st with
    | (Ok a, st') => (Ok a, st')
    | (Raise e, st') => h e st'
    end.

(** Lifting the outcome of an external call. *)
Definition lift {A} (r : Result A) : M A := fun st => (r, st).

Declare Scope py_scope.
Delimit Scope py_scope with py.
Notation "'let!' x ':=' c 'in' k" := (bind c (fun x => k))
  (at level 10, x name, c at level 100, k at level 200) : py_scope.
Notation "c ;;; k" := (bind c (fun _ => k))
  (at level 100, k at level 200, right associativity) : py_scope.
Local Open Scope py_scope.

Definition logger_info (msg : string) : M unit :=
  fun st => (Ok tt, mkState (disk st) (chroma st) (ingestions st)
                            ((log st ++ [(INFO, msg)])%list)).

Definition logger_error (msg : string) : M unit :=
  fun st => (Ok tt, mkState (disk st) (chroma st) (ingestions st)
                            ((log st ++ [(ERROR, msg)])%list)).

(** [os.path.exists(p)] *)
Definition os_path_exists (p : string) : M bool :=
  fun st => (Ok (bool_decide (p ∈ disk st)), st).

(** ** Strings *)

(** [s.endswith(suffix)] *)
Definition endswith (s suffix : string) : bool :=
  let n := String.length s in
  let m := String.length suffix in
  (m <=? n)%nat && String.eqb (substring (n - m) m s) suffix.

(** [s.startswith(prefix)] *)
Definition startswith (s pre : string) : bool :=
  String.eqb (substring 0 (String.length pre) s) pre.

(** [str(n)] for a non-negative int. *)
Definition str_nat (n : nat) : string := pretty n.

(** [os.path.join(a, b)] on POSIX. *)
Definition os_path_join (a b : string) : string :=
  if startswith b "/" then b
  else if (String.eqb a "" || endswith a "/") then a ++ b
  else a ++ "/" ++ b.

(** ** The vector index engine (langchain_chroma.Chroma)

    The engine is an external library.  Its effect on the state follows
    section 4.2 of the specification. *)
Record VectorStore : Type := mkVectorStore {
  vs_collection_name : string;
  vs_persist_directory : string
}.

(** Modelled from the spec: the constructor [Chroma(collection_name,
    persist_directory, embedding_function)].  Opening a collection creates
    its storage location, and an empty collection when none is stored there
    ("the collection object is still opened/created but no vectors are
    inserted").  The spec does not say what a constructor that raises
    leaves behind: the world tells whether the storage location has been
    created by then; no collection is stored in that case. *)
Definition Chroma (w : World) (collection_name persist_directory : string)
  : M VectorStore :=
  fun st =>
    match chroma_init_error w persist_directory with
    | Some e =>
        (Raise e,
         if chroma_init_leaves_dir w persist_directory
         then mkState ({[persist_directory]} ∪ disk st) (chroma st)
                      (ingestions st) (log st)
         else st)
    | None =>
        (Ok (mkVectorStore collection_name persist_directory),
         mkState ({[persist_directory]} ∪ disk st)
                 (<[persist_directory :=
                      default [] (chroma st !! persist_directory)]> (chroma st))
                 (ingestions st) (log st))
    end.

(** Modelled from the spec: [vector_store.add_documents(documents)].
    Either all the documents are inserted or the call raises and nothing
    is ("must be atomic from the caller's perspective"). *)
Definition add_documents (w : World) (vs : VectorStore)
  (documents : list Document) : M unit :=
  fun st =>
    let dir := vs_persist_directory vs in
    match chroma_add_error w dir documents with
    | Some e => (Raise e, st)
    | None =>
        (Ok tt,
         mkState (disk st)
                 (<[dir := (default [] (chroma st !! dir) ++ documents)%list]>
                    (chroma st))
                 ((ingestions st ++ [(dir, documents)])%list) (log st))
    end.

Definition as_retriever (vs : VectorStore) (k : nat) : Retriever :=
  mkRetriever (vs_collection_name vs) (vs_persist_directory vs) k.

(** ** vector.py *)

Record VectorDBManager : Type := mkVectorDBManager {
  db_root : string;
  embeddings : string
}.

Definition _get_collection_path (self : VectorDBManager) (topic : string)
  : string :=
  os_path_join (db_root self) topic.

Definition _load_pdf (w : World) (file_path : string) : M (list Document) :=
  try_except
    (let! pages := lift (pdf_pages w file_path) in
     ret (imap (fun i text =>
                  mkDocument text
                    (<["page" := SInt (Z.of_nat i + 1)]>
                       (<["source" := SStr file_path]>
                          (<["type" := SStr "pdf"]> ∅)))
                    ("pdf_" ++ str_nat i))
               pages))
    (fun e =>
       logger_error ("Error loading PDF " ++ file_path ++ ": " ++ str_exc e) ;;;
       raise e).

Definition _load_json (w : World) (file_path : string) : M (list Document) :=
  try_except
    (let! data := lift (json_load w file_path) in
     match data with
     | JList items =>
         ret (imap (fun i item =>
                      mkDocument (py_str w item)
                        (<["source" := SStr file_path]>
                           (<["type" := SStr "json_list_item"]> ∅))
                        ("json_" ++ str_nat i))
                   items)
     | JDict _ =>
         ret [mkDocument (json_dumps w data)
                (<["source" := SStr file_path]>
                   (<["type" := SStr "json_document"]> ∅))
                "json_0"]
     | _ => ret []
     end)
    (fun e =>
       logger_error ("Error loading JSON " ++ file_path ++ ": " ++ str_exc e) ;;;
       raise e).

Definition _load_text (w : World) (file_path : string) : M (list Document) :=
  try_except
    (let! content := lift (read_text w file_path) in
     ret [mkDocument content
            (<["source" := SStr file_path]>
               (<["type" := SStr "text"]> ∅))
            "text_0"])
    (fun e =>
       logger_error
         ("Error loading text file " ++ file_path ++ ": " ++ str_exc e) ;;;
       raise e).

(** The handler of [_load_document]: it logs the value [file_path] has
    when the exception arrives, and re-raises. *)
Definition load_failed {A} (file_path : string) (e : Exception) : M A :=
  logger_error ("Failed to load " ++ file_path ++ ": " ++ str_exc e) ;;;
  raise e.

(** The first statement of the [try] block rebinds [file_path] to its
    resolved form.  When the resolution itself raises, the handler still
    sees the path as the caller gave it; afterwards it sees the resolved
    path. *)
Definition _load_document (w : World) (file_path : string)
  : M (list Document) :=
  match resolve_error w file_path with
  | Some e => load_failed file_path e
  | None =>
      let file_path := resolve w file_path in
      try_except
        (let! present := os_path_exists file_path in
         if negb present then
           raise (FileNotFoundError ("File not found: " ++ file_path))
         else if endswith file_path ".pdf" then _load_pdf w file_path
         else if endswith file_path ".json" then _load_json w file_path
         else if endswith file_path ".txt" then _load_text w file_path
         else raise (ValueError ("Unsupported file type: " ++ file_path)))
        (load_failed file_path)
  end.

(** The [for source in sources] loop of [create_or_update_collection],
    with [documents] as the accumulator. *)
Fixpoint load_sources (w : World) (sources : list string)
  (documents : list Document) : M (list Document) :=
  match sources with
  | [] => ret documents
  | source :: rest =>
      let! documents' :=
        try_except
          (let! docs := _load_document w source in
           logger_info ("Loaded " ++ str_nat (length docs)
                        ++ " documents from " ++ source) ;;;
           ret ((documents ++ docs)%list))
          (fun e =>
             logger_error ("Skipping " ++ source ++ ": " ++ str_exc e) ;;;
             ret documents) in
      load_sources w rest documents'
  end.

(** Truthiness of a Python list. *)
Definition truthy {A} (l : list A) : bool :=
  match l with [] => false | _ => true end.

Definition create_or_update_collection (w : World) (self : VectorDBManager)
  (topic : string) (sources : list string)
  (metadata : option (gmap string Scalar)) : M Retriever :=
  let collection_path := _get_collection_path self topic in
  let! present := os_path_exists collection_path in
  let is_new := negb present in
  let! documents := load_sources w sources [] in
  let! vector_store := Chroma w topic collection_path in
  (if is_new && truthy documents then
     try_except
       (add_documents w vector_store documents ;;;
        logger_info ("Created new collection '" ++ topic ++ "' with "
                     ++ str_nat (length documents) ++ " docs"))
       (fun e =>
          logger_error ("Failed to create collection: " ++ str_exc e) ;;;
          raise e)
   else ret tt) ;;;
  ret (as_retriever vector_store 5).

Definition get_retriever (w : World) (self : VectorDBManager)
  (topic : string) : M Retriever :=
  let collection_path := _get_collection_path self topic in
  let! present := os_path_exists collection_path in
  if negb present then
    raise (ValueError ("Collection '" ++ topic ++ "' does not exist"))
  else
    let! vector_store := Chroma w topic collection_path in
    ret (as_retriever vector_store 5).

(** ** main.py *)

(** The module-level names [rebuild_vector_db] declares [global]. *)
Record Globals : Type := mkGlobals {
  db_manager : VectorDBManager;
  current_sources : list string;
  current_topic : string
}.

Definition rebuild_metadata : gmap string Scalar :=
  <["domain" := SStr "restaurant"]> (<["type" := SStr "reviews"]> ∅).

(** The whole body sits in [try ... except Exception]; the assignment to
    [current_sources] is its first statement. *)
Definition rebuild_vector_db (w : World) (g : Globals) (sources : list string)
  (st : State) : string * Globals * State :=
  let g := mkGlobals (db_manager g) sources (current_topic g) in
  match create_or_update_collection w (db_manager g) (current_topic g)
          sources (Some rebuild_metadata) st with
  | (Ok retriever, st') => ("Vector database rebuilt successfully!", g, st')
  | (Raise e, st') =>
      ("Error rebuilding vector database: " ++ str_exc e, g, st')
  end.

(** ** Derived notions used by the statements *)

(** The documents a persist directory holds. *)
Definition collection_content (st : State) (dir : string) : list Document :=
  default [] (chroma st !! dir).

(** The branch the [if]/[elif] chain of [_load_document] takes. *)
Inductive Format : Type := PDF | JSON | TXT | Unsupported.

Definition format_of (file_path : string) : Format :=
  if endswith file_path ".pdf" then PDF
  else if endswith file_path ".json" then JSON
  else if endswith file_path ".txt" then TXT
  else Unsupported.

(** A file is well formed for its format when the reader of that format
    returns instead of raising. *)
Definition well_formed (w : World) (file_path : string) : Prop :=
  match format_of file_path with
  | PDF => exists pages, pdf_pages w file_path = Ok pages
  | JSON => exists data, json_load w file_path = Ok data
  | TXT => exists content, read_text w file_path = Ok content
  | Unsupported => False
  end.

(** How many documents the loaders build from a well-formed file. *)
Definition document_count (w : World) (file_path : string) : nat :=
  match format_of file_path with
  | PDF => match pdf_pages w file_path with
           | Ok pages => length pages
           | Raise _ => 0
           end
  | JSON => match json_load w file_path with
            | Ok (JList items) => length items
            | Ok (JDict _) => 1
            | _ => 0
            end
  | TXT => match read_text w file_path with
           | Ok _ => 1
           | Raise _ => 0
           end
  | Unsupported => 0
  end.

Definition source_of (d : Document) : option Scalar := metadata d !! "source".

(** A state with the given disk and nothing else, and a state with more
    log records: loading reads the disk and writes the log only. *)
Definition bare (d : gset string) : State := mkState d ∅ [] [].

Definition with_log (st : State) (l : list (Level * string)) : State :=
  mkState (disk st) (chroma st) (ingestions st) (log st ++ l)%list.

(** What one source contributes to the collected documents. *)
Definition loaded (w : World) (d : gset string) (source : string)
  : list Document :=
  match fst (_load_document w source (bare d)) with
  | Ok docs => docs
  | Raise _ => []
  end.

(** The status strings of [rebuild_vector_db]. *)
Definition success_status : string := "Vector database rebuilt successfully!".

Definition failure_status (cause : string) : string :=
  "Error rebuilding vector database: " ++ cause.

Definition is_failure_status (s : string) : bool :=
  startswith s "Error rebuilding vector database: ".

(** The exception the reader of a file's format raises on it, if any, and
    the name under which each loader reports a failure. *)
Definition reader_failure (w : World) (file_path : string) : option Exception :=
  match format_of file_path with
  | PDF => match pdf_pages w file_path with Raise e => Some e | Ok _ => None end
  | JSON => match json_load w file_path with Raise e => Some e | Ok _ => None end
  | TXT => match read_text w file_path with Raise e => Some e | Ok _ => None end
  | Unsupported => None
  end.

Definition loader_name (f : Format) : string :=
  match f with
  | PDF => "PDF"
  | JSON => "JSON"
  | TXT => "text file"
  | Unsupported => ""
  end.

(** The id every loader gives to the first document it builds. *)
Definition first_id (f : Format) : string :=
  match f with
  | PDF => "pdf_0"
  | JSON => "json_0"
  | TXT => "text_0"
  | Unsupported => ""
  end.

(** ** main.py, the query path *)

(** The two services [query_restaurant] calls on top of the manager.
    - [retriever_invoke content k question] is [retriever.invoke(question)]
      on a collection holding [content], with [search_kwargs={"k": k}];
    - [chain_invoke reviews question] is
      [chain.invoke({"reviews": reviews, "question": question})], the prompt
      piped into the language model. *)
Record Services : Type := mkServices {
  retriever_invoke : list Document -> nat -> string -> Result (list Document);
  chain_invoke : list Document -> string -> Result string
}.

(** The escape [\n] of the Python string literals. *)
Definition newline : string := String (ascii_of_nat 10) EmptyString.

(** [c.isspace()] for a character whose code point is below 256: the
    controls 9 to 13 and 28 to 31, the space, NEL (133) and the no-break
    space (160). *)
Definition py_isspace (c : ascii) : bool :=
  let n := nat_of_ascii c in
  ((9 <=? n)%nat && (n <=? 13)%nat)
  || ((28 <=? n)%nat && (n <=? 32)%nat)
  || (n =? 133)%nat || (n =? 160)%nat.

(** [s.lstrip()], [s.rstrip()] and [s.strip()] without arguments. *)
Fixpoint lstrip (s : string) : string :=
  match s with
  | EmptyString => EmptyString
  | String c rest => if py_isspace c then lstrip rest else s
  end.

Fixpoint rstrip (s : string) : string :=
  match s with
  | EmptyString => EmptyString
  | String c rest =>
      match rstrip rest with
      | EmptyString => if py_isspace c then EmptyString
                       else String c EmptyString
      | kept => String c kept
      end
  end.

Definition strip (s : string) : string := rstrip (lstrip s).

(** [retriever.invoke(question)]: a read of the collection the retriever
    is bound to. *)
Definition invoke (sv : Services) (retriever : Retriever) (question : string)
  : M (list Document) :=
  fun st =>
    (retriever_invoke sv
       (collection_content st (r_persist_directory retriever))
       (r_k retriever) question,
     st).

(** The [for source in current_sources] loop of [query_restaurant], with
    [formatted_response] as the accumulator. *)
Fixpoint append_references (formatted_response : string)
  (sources : list string) : string :=
  match sources with
  | [] => formatted_response
  | source :: rest =>
      append_references
        (formatted_response ++ "<div class='reference-item'>Loaded from: "
         ++ source ++ "</div>" ++ newline ++ newline)
        rest
  end.

Definition query_restaurant (w : World) (sv : Services) (g : Globals)
  (question : string) (st : State) : string * State :=
  if String.eqb (strip question) "" then
    ("Please enter a question about the restaurant.", st)
  else
    match
      (let! retriever := get_retriever w (db_manager g) (current_topic g) in
       let! reviews := invoke sv retriever question in
       let! result := lift (chain_invoke sv reviews question) in
       let formatted_response :=
         "<div class='response-section response-main'>"
         ++ "<h2>RESTAURANT REVIEW ANALYSIS</h2>" ++ newline ++ newline in
       let formatted_response := formatted_response ++ result in
       let formatted_response := formatted_response ++ "</div>" in
       let formatted_response :=
         formatted_response ++ newline ++ newline
         ++ "<div class='response-section references-section'>"
         ++ "<h3>INFORMATION SOURCES</h3>" ++ newline ++ newline in
       let formatted_response :=
         append_references formatted_response (current_sources g) in
       let formatted_response := formatted_response ++ "</div>" in
       ret formatted_response) st
    with
    | (Ok formatted_response, st') => (formatted_response, st')
    | (Raise e, st') => ("Error processing query: " ++ str_exc e, st')
    end.

(** A question made of whitespace only (or empty). *)
Definition blank (s : string) : bool :=
  forallb py_isspace (list_ascii_of_string s).

(** The page [query_restaurant] builds from the model's answer and the
    remembered sources, in closed form. *)
Definition reference_item (source : string) : string :=
  "<div class='reference-item'>Loaded from: " ++ source ++ "</div>"
  ++ newline ++ newline.

Definition references (sources : list string) : string :=
  fold_right (fun source rest => reference_item source ++ rest) "" sources.

Definition response_page (result : string) (sources : list string) : string :=
  "<div class='response-section response-main'>"
  ++ "<h2>RESTAURANT REVIEW ANALYSIS</h2>" ++ newline ++ newline
  ++ result ++ "</div>" ++ newline ++ newline
  ++ "<div class='response-section references-section'>"
  ++ "<h3>INFORMATION SOURCES</h3>" ++ newline ++ newline
  ++ references sources ++ "</div>".

(** What a query answers once the retriever is open: the page, or the
    cause of the first service that fails. *)
Definition query_outcome (sv : Services) (content : list Document)
  (sources : list string) (question : string) : string :=
  match retriever_invoke sv content 5 question with
  | Raise e => "Error processing query: " ++ str_exc e
  | Ok reviews =>
      match chain_invoke sv reviews question with
      | Raise e => "Error processing query: " ++ str_exc e
      | Ok result => response_page result sources
      end
  end.

(** The state after the engine opened the collection at [path] once more. *)
Definition reopened (st : State) (path : string) : State :=
  mkState (disk st) (<[path := collection_content st path]> (chroma st))
    (ingestions st) (log st).

(** ** main.py, the configuration

    [os.environ] is a map from names to values.  [load_dotenv] is external:
    it is a parameter that maps the file's path and the environment to the
    environment it leaves.  [env_path] stands for
    [Path(__file__).parent.parent / "config" / "secrets.env"], and the last
    component of the result is what was printed. *)
Definition os_getenv (environ : gmap string string) (key default_value : string)
  : string :=
  default default_value (environ !! key).

Definition load_config
  (load_dotenv : string -> gmap string string -> gmap string string)
  (env_path : string) (on_disk : gset string) (environ : gmap string string)
  : gmap string string * gmap string string * list string :=
  let ollama_base_url :=
    os_getenv environ "OLLAMA_BASE_URL" "http://localhost:11434" in
  let ollama_model := os_getenv environ "OLLAMA_MODEL" "mistral:latest" in
  let '(environ, printed) :=
    if bool_decide (env_path ∈ on_disk) then
      (load_dotenv env_path environ, ["Loaded config from secrets.env file"])
    else
      (environ,
       ["Warning: No environment config found - using only OS environment variables"])
  in
  (<["ollama_base_url" :=
       os_getenv environ "OLLAMA_BASE_URL" ollama_base_url]>
     (<["ollama_model" := os_getenv environ "OLLAMA_MODEL" ollama_model]> ∅),
   environ, printed).

(** ** A sample world

    A working directory [/srv/app] with a text file, a JSON file whose root
    is the empty list and a CSV file; every other path is missing.  The
    engine never fails.  A path with a NUL character cannot be resolved. *)
Fixpoint contains_nul (p : string) : bool :=
  match p with
  | EmptyString => false
  | String c rest => (nat_of_ascii c =? 0)%nat || contains_nul rest
  end.

Definition sample_resolve_error (p : string) : option Exception :=
  if contains_nul p then Some (ValueError "embedded null byte") else None.

Definition sample_resolve (p : string) : string :=
  if startswith p "/" then p else "/srv/app/" ++ p.

Definition sample_world : World :=
  mkWorld sample_resolve_error sample_resolve
    (fun p => if String.eqb p "/srv/app/notes.txt"
              then Ok "Great pizza, slow service."
              else Raise (OtherError "OSError" ("cannot read " ++ p)))
    (fun p => if String.eqb p "/srv/app/empty.json"
              then Ok (JList [])
              else Raise (OtherError "JSONDecodeError" "Expecting value"))
    (fun p => Raise (OtherError "PdfReadError" "EOF marker not found"))
    (fun _ => "item")
    (fun _ => "{}")
    (fun _ => None)
    (fun _ => true)
    (fun _ _ => None).

(** The same world with an engine that cannot be opened and has created
    the storage location by the time it raises. *)
Definition broken_engine_world : World :=
  mkWorld sample_resolve_error sample_resolve (read_text sample_world)
    (json_load sample_world) (pdf_pages sample_world) (py_str sample_world)
    (json_dumps sample_world)
    (fun _ => Some (OtherError "RuntimeError" "engine unavailable"))
    (fun _ => true)
    (fun _ _ => None).

Definition sample_state : State :=
  mkState {[ "./vector_dbs"; "/srv/app/notes.txt"; "/srv/app/empty.json";
             "/srv/app/menu.csv" ]} ∅ [] [].

Definition sample_manager : VectorDBManager :=
  mkVectorDBManager "./vector_dbs" "mxbai-embed-large".

Definition sample_globals : Globals :=
  mkGlobals sample_manager [] "restaurant_reviews".

(** The state after a rebuild of topic [t2] from a single missing path. *)
Definition after_empty_rebuild : State :=
  snd (create_or_update_collection sample_world sample_manager "t2"
         ["missing.txt"] None sample_state).

(** Services for the sample world: the retriever returns the first [k]
    stored documents, the model answers with a fixed sentence. *)
Definition sample_services : Services :=
  mkServices (fun content k _ => Ok (take k content))
             (fun _ _ => Ok "The pizza is praised.").

(** A world with a two-page PDF, two text files and a JSON file whose root
    is a list of two numbers. *)
Definition library_world : World :=
  mkWorld sample_resolve_error sample_resolve
    (fun p => if String.eqb p "/srv/app/notes.txt"
              then Ok "Great pizza, slow service."
              else if String.eqb p "/srv/app/more.txt"
              then Ok "Cold pasta."
              else Raise (OtherError "OSError" ("cannot read " ++ p)))
    (fun p => if String.eqb p "/srv/app/scores.json"
              then Ok (JList [JInt 4; JInt 5])
              else Raise (OtherError "JSONDecodeError" "Expecting value"))
    (fun p => if String.eqb p "/srv/app/menu.pdf"
              then Ok ["Starters"; ""]
              else Raise (OtherError "PdfReadError" "EOF marker not found"))
    (fun _ => "item")
    (fun _ => "{}")
    (fun _ => None)
    (fun _ => true)
    (fun dir _ => if String.eqb dir "./vector_dbs/flaky"
                  then Some (OtherError "ConnectionError" "embedding failed")
                  else None).

Definition library_state : State :=
  mkState {[ "./vector_dbs"; "/srv/app/notes.txt"; "/srv/app/more.txt";
             "/srv/app/scores.json"; "/srv/app/menu.pdf";
             "/srv/app/broken.pdf" ]} ∅ [] [].

(** * Properties *)

Ltac run :=
  unfold _load_document, load_failed, _load_pdf, _load_json, _load_text,
    try_except, bind, ret, raise, lift, logger_error, logger_info,
    os_path_exists in *;
  simpl in *.

Lemma with_log_nil st : with_log st [] = st.
Proof. destruct st; unfold with_log; simpl; by rewrite app_nil_r. Qed.

Lemma with_log_app st a b :
  with_log (with_log st a) b = with_log st (a ++ b)%list.
Proof. unfold with_log; simpl; by rewrite app_assoc. Qed.

Lemma with_log_one st lvl msg :
  mkState (disk st) (chroma st) (ingestions st) (log st ++ [(lvl, msg)])%list
  = with_log st [(lvl, msg)].
Proof. reflexivity. Qed.

Ltac log_eq :=
  unfold with_log; simpl; rewrite ?app_nil_r, <- ?app_assoc; simpl;
  try reflexivity.

(** Loading one source reads the disk only and writes the log only. *)
Lemma load_document_run w p st :
  _load_document w p st =
  (fst (_load_document w p (bare (disk st))),
   with_log st (log (snd (_load_document w p (bare (disk st)))))).
Proof.
  destruct st as [d c g l]; run.
  destruct (resolve_error w p); simpl; [log_eq|].
  destruct (bool_decide (resolve w p ∈ d)); simpl; [|log_eq].
  destruct (endswith (resolve w p) ".pdf"); simpl.
  { destruct (pdf_pages w (resolve w p)); log_eq. }
  destruct (endswith (resolve w p) ".json"); simpl.
  { destruct (json_load w (resolve w p)) as [[]|]; log_eq. }
  destruct (endswith (resolve w p) ".txt"); simpl; [|log_eq].
  destruct (read_text w (resolve w p)); log_eq.
Qed.

Lemma load_document_frame w p st :
  disk (snd (_load_document w p st)) = disk st
  /\ chroma (snd (_load_document w p st)) = chroma st
  /\ ingestions (snd (_load_document w p st)) = ingestions st.
Proof. rewrite load_document_run; simpl; auto. Qed.

(** The result of loading depends on the disk alone. *)
Lemma load_document_result w p st :
  fst (_load_document w p st) = fst (_load_document w p (bare (disk st))).
Proof. by rewrite load_document_run. Qed.

(** The loop never raises: it returns the accumulator followed by the
    documents of the sources that loaded, in source order, and it logs a
    "Skipping" record at error level for each source that did not. *)
Lemma load_sources_run w sources : forall acc st,
  exists l,
    load_sources w sources acc st =
      (Ok (acc ++ flat_map (loaded w (disk st)) sources)%list, with_log st l)
    /\ forall s e, s ∈ sources ->
         fst (_load_document w s (bare (disk st))) = Raise e ->
         (ERROR, "Skipping " ++ s ++ ": " ++ str_exc e) ∈ l.
Proof.
  induction sources as [|source rest IH]; intros acc st.
  - exists []. split.
    + cbn [load_sources flat_map]. unfold ret.
      by rewrite with_log_nil, app_nil_r.
    + intros s e Hs. by apply elem_of_nil in Hs.
  - cbn [load_sources flat_map].
    unfold bind at 1. unfold try_except at 1. unfold bind at 1.
    rewrite (load_document_run w source st).
    unfold loaded at 1.
    destruct (fst (_load_document w source (bare (disk st)))) as [docs|e0] eqn:E.
    + unfold bind, logger_info, ret; cbn [fst snd].
      rewrite with_log_one, with_log_app.
      match goal with
      | |- context [load_sources w rest ?a ?s] =>
          destruct (IH a s) as (l & Hrun & Hlog)
      end.
      rewrite Hrun. cbn [disk with_log] in *.
      eexists. split.
      * rewrite with_log_app, <- app_assoc. reflexivity.
      * intros s e Hs He. apply elem_of_app. right.
        apply elem_of_cons in Hs as [->|Hs].
        -- rewrite E in He. discriminate.
        -- by apply Hlog.
    + unfold bind, logger_error, ret; cbn [fst snd].
      rewrite with_log_one, with_log_app.
      match goal with
      | |- context [load_sources w rest ?a ?s] =>
          destruct (IH a s) as (l & Hrun & Hlog)
      end.
      rewrite Hrun. cbn [disk with_log] in *.
      eexists. split.
      * rewrite with_log_app. reflexivity.
      * intros s e Hs He.
        apply elem_of_cons in Hs as [->|Hs].
        -- rewrite E in He. injection He as ->.
           apply elem_of_app. left. apply elem_of_app. right.
           apply list_elem_of_singleton. reflexivity.
        -- apply elem_of_app. right. by apply Hlog.
Qed.

(** Every run of [create_or_update_collection], by cases on the engine's
    answers and on the [is_new and documents] test. *)
Lemma create_or_update_collection_run w self topic sources md st :
  let path := _get_collection_path self topic in
  let docs := flat_map (loaded w (disk st)) sources in
  exists l,
    (forall s e, s ∈ sources ->
       fst (_load_document w s (bare (disk st))) = Raise e ->
       (ERROR, "Skipping " ++ s ++ ": " ++ str_exc e) ∈ l)
    /\ match chroma_init_error w path with
       | Some e =>
           create_or_update_collection w self topic sources md st
           = (Raise e,
              mkState (if chroma_init_leaves_dir w path
                       then {[path]} ∪ disk st else disk st)
                (chroma st) (ingestions st) (log st ++ l)%list)
       | None =>
           if negb (bool_decide (path ∈ disk st)) && truthy docs then
             match chroma_add_error w path docs with
             | Some e =>
                 create_or_update_collection w self topic sources md st
                 = (Raise e,
                    mkState ({[path]} ∪ disk st)
                      (<[path := collection_content st path]> (chroma st))
                      (ingestions st)
                      (log st ++ l ++
                       [(ERROR, ("Failed to create collection: "
                                 ++ str_exc e)%string)])%list)
             | None =>
                 create_or_update_collection w self topic sources md st
                 = (Ok (mkRetriever topic path 5),
                    mkState ({[path]} ∪ disk st)
                      (<[path := (collection_content st path ++ docs)%list]>
                         (chroma st))
                      (ingestions st ++ [(path, docs)])%list
                      (log st ++ l ++
                       [(INFO, ("Created new collection '" ++ topic
                                ++ "' with " ++ str_nat (length docs)
                                ++ " docs")%string)])%list)
             end
           else
             create_or_update_collection w self topic sources md st
             = (Ok (mkRetriever topic path 5),
                mkState ({[path]} ∪ disk st)
                  (<[path := collection_content st path]> (chroma st))
                  (ingestions st) (log st ++ l)%list)
       end.
Proof.
  intros path docs.
  destruct (load_sources_run w sources [] st) as (l & Hrun & Hlog).
  exists l. split; [exact Hlog|].
  remember (create_or_update_collection w self topic sources md st) as R eqn:HR.
  unfold create_or_update_collection in HR.
  fold path in HR. unfold bind at 1 in HR. unfold os_path_exists at 1 in HR.
  unfold bind at 1 in HR. rewrite Hrun in HR. cbn [app] in HR. fold docs in HR.
  unfold bind at 1 in HR. unfold Chroma at 1 in HR.
  cbn [with_log disk chroma ingestions log] in HR.
  destruct (chroma_init_error w path) as [e|].
  { by destruct (chroma_init_leaves_dir w path). }
  fold (collection_content st path) in HR.
  destruct (negb (bool_decide (path ∈ disk st)) && truthy docs).
  - unfold bind at 1 in HR. unfold try_except at 1 in HR.
    unfold bind at 1 in HR. unfold add_documents, as_retriever in HR.
    cbn [vs_persist_directory vs_collection_name disk chroma ingestions log]
      in HR.
    destruct (chroma_add_error w path docs) as [e|].
    + unfold bind, logger_error, raise, ret in HR. cbn in HR.
      by rewrite <- app_assoc in HR.
    + unfold bind, logger_info, ret in HR. cbn in HR.
      rewrite lookup_insert_eq, insert_insert_eq in HR. cbn in HR.
      by rewrite <- app_assoc in HR.
  - exact HR.
Qed.

Lemma content_after_open st path dir docs :
  default [] (<[path := docs]> (chroma st) !! dir) =
  if decide (path = dir) then docs else collection_content st dir.
Proof.
  unfold collection_content. destruct (decide (path = dir)) as [->|Hne].
  - by rewrite lookup_insert_eq.
  - by rewrite lookup_insert_ne.
Qed.

Lemma content_reopened st path dir :
  default [] (<[path := collection_content st path]> (chroma st) !! dir) =
  collection_content st dir.
Proof.
  rewrite content_after_open. by destruct (decide (path = dir)) as [->|].
Qed.

(** A path that resolves to a missing file: [_load_document] raises
    [FileNotFoundError] with the resolved path and logs the failure. *)
Lemma load_document_missing w p st :
  resolve_error w p = None ->
  resolve w p ∉ disk st ->
  _load_document w p st =
  (Raise (FileNotFoundError ("File not found: " ++ resolve w p)),
   with_log st [(ERROR, "Failed to load " ++ resolve w p ++ ": "
                        ++ "File not found: " ++ resolve w p)]).
Proof.
  intros Hres Hmiss. run. rewrite Hres. simpl.
  rewrite bool_decide_eq_false_2 by exact Hmiss. reflexivity.
Qed.

(** A path that cannot be resolved: the resolver's exception is raised
    again and the record names the path as the caller gave it. *)
Lemma load_document_unresolved w p st e :
  resolve_error w p = Some e ->
  _load_document w p st =
  (Raise e, with_log st [(ERROR, "Failed to load " ++ p ++ ": "
                                 ++ str_exc e)]).
Proof. intros Hres. run. by rewrite Hres. Qed.

(** Either way, a path whose resolved form is not on disk does not load. *)
Lemma load_document_absent w p st :
  resolve w p ∉ disk st ->
  exists e, fst (_load_document w p st) = Raise e.
Proof.
  intros Hmiss. destruct (resolve_error w p) as [e|] eqn:Hres.
  - exists e. by rewrite (load_document_unresolved w p st e Hres).
  - eexists. by rewrite (load_document_missing w p st Hres Hmiss).
Qed.

(** ** C1: a second rebuild of the same topic *)

(** C1.  For every topic and every two source lists [S1] and [S2]: if the
    first call of [create_or_update_collection] leaves the topic's storage
    location on disk, the second call, also with other sources, performs
    no ingestion (the history of [add_documents] calls is unchanged),
    leaves the stored content of every collection identical to what it was
    after the first call, and leaves the disk as it was. *)
Theorem rebuild_twice_no_reingestion
  w self topic (S1 S2 : list string) md1 md2 st0 :
  let path := _get_collection_path self topic in
  let st1 := snd (create_or_update_collection w self topic S1 md1 st0) in
  let st2 := snd (create_or_update_collection w self topic S2 md2 st1) in
  path ∈ disk st1 ->
  ingestions st2 = ingestions st1
  /\ (forall dir, collection_content st2 dir = collection_content st1 dir)
  /\ disk st2 = disk st1.
Proof.
  intros path st1 st2 Hpresent. subst st2.
  destruct (create_or_update_collection_run w self topic S2 md2 st1)
    as (l & _ & Hrun).
  fold path in Hrun.
  rewrite (bool_decide_eq_true_2 _ Hpresent) in Hrun. cbn [negb andb] in Hrun.
  assert (Hdisk : {[path]} ∪ disk st1 = disk st1).
  { apply subseteq_union_1_L. by apply singleton_subseteq_l. }
  destruct (chroma_init_error w path); rewrite Hrun; cbn [snd].
  - split; [reflexivity|]. split; [reflexivity|]. cbn [disk].
    by destruct (chroma_init_leaves_dir w path).
  - split; [reflexivity|]. split.
    + intros dir. unfold collection_content at 1. cbn [chroma].
      apply content_reopened.
    + exact Hdisk.
Qed.

Lemma rebuild_twice_no_reingestion_witness :
  let path := _get_collection_path sample_manager "t1" in
  let st1 := snd (create_or_update_collection sample_world sample_manager
                    "t1" ["notes.txt"] None sample_state) in
  let st2 := snd (create_or_update_collection sample_world sample_manager
                    "t1" ["empty.json"; "missing.txt"] None st1) in
  path ∈ disk st1
  /\ ingestions st2 = ingestions st1
  /\ (forall dir, collection_content st2 dir = collection_content st1 dir)
  /\ disk st2 = disk st1.
Proof.
  intros path st1 st2.
  assert (Hpresent : path ∈ disk st1).
  { apply (bool_decide_unpack _). vm_compute. exact I. }
  split; [exact Hpresent|].
  exact (rebuild_twice_no_reingestion sample_world sample_manager "t1"
           ["notes.txt"] ["empty.json"; "missing.txt"] None None sample_state
           Hpresent).
Defined.

(** ** C8: retriever of a topic that was never built *)

(** C8.  For every topic whose storage location is not on disk,
    [get_retriever] raises the collection-not-found error
    ([ValueError] with the message "Collection '<topic>' does not exist")
    instead of returning a handle, and changes nothing. *)
Theorem get_retriever_never_built w self topic st :
  _get_collection_path self topic ∉ disk st ->
  get_retriever w self topic st =
  (Raise (ValueError ("Collection '" ++ topic ++ "' does not exist")), st).
Proof.
  intros Habsent. unfold get_retriever, bind, os_path_exists, raise.
  rewrite bool_decide_eq_false_2 by exact Habsent. reflexivity.
Qed.

Lemma get_retriever_never_built_witness :
  (_get_collection_path sample_manager "restaurant_reviews"
     ∉ disk sample_state)
  /\ get_retriever sample_world sample_manager "restaurant_reviews"
       sample_state =
     (Raise (ValueError "Collection 'restaurant_reviews' does not exist"),
      sample_state).
Proof.
  assert (Habsent : _get_collection_path sample_manager "restaurant_reviews"
                    ∉ disk sample_state).
  { apply (bool_decide_unpack _). vm_compute. exact I. }
  split; [exact Habsent|].
  exact (get_retriever_never_built sample_world sample_manager
           "restaurant_reviews" sample_state Habsent).
Defined.

(** ** C3 and C9: the rebuild boundary *)

Lemma rebuild_vector_db_run w g sources st :
  rebuild_vector_db w g sources st =
  match create_or_update_collection w (db_manager g) (current_topic g)
          sources (Some rebuild_metadata) st with
  | (Ok _, st') =>
      (success_status, mkGlobals (db_manager g) sources (current_topic g), st')
  | (Raise e, st') =>
      (failure_status (str_exc e),
       mkGlobals (db_manager g) sources (current_topic g), st')
  end.
Proof. reflexivity. Qed.

(** C3.  [rebuild_vector_db] always returns a status string and the state
    the manager reached: when [create_or_update_collection] returns, the
    status is the success message; when it raises [e], the status is
    exactly "Error rebuilding vector database: " followed by [str(e)].
    Nothing is raised to the caller: the result is a plain string. *)
Theorem rebuild_never_raises w g sources st :
  let inner := create_or_update_collection w (db_manager g) (current_topic g)
                 sources (Some rebuild_metadata) st in
  let status := fst (fst (rebuild_vector_db w g sources st)) in
  snd (rebuild_vector_db w g sources st) = snd inner
  /\ ((exists retriever, fst inner = Ok retriever
                         /\ status = "Vector database rebuilt successfully!")
      \/ (exists e, fst inner = Raise e
                    /\ status = "Error rebuilding vector database: "
                                ++ str_exc e)).
Proof.
  intros inner status. subst status. rewrite rebuild_vector_db_run.
  fold inner. destruct inner as [[retriever|e] st']; cbn [fst snd].
  - split; [reflexivity|]. left. by exists retriever.
  - split; [reflexivity|]. right. by exists e.
Qed.

(** C9.  After every call of [rebuild_vector_db], [current_sources] is the
    requested list, whatever the sources did when loaded and whatever the
    status; the other globals are untouched. *)
Theorem rebuild_replaces_current_sources w g sources st :
  let g' := snd (fst (rebuild_vector_db w g sources st)) in
  current_sources g' = sources
  /\ db_manager g' = db_manager g
  /\ current_topic g' = current_topic g.
Proof.
  intros g'. subst g'. rewrite rebuild_vector_db_run.
  destruct (create_or_update_collection _ _ _ _ _ _) as [[retriever|e] st'];
    cbn [fst snd current_sources db_manager current_topic]; auto.
Qed.

(** Both outcomes of the boundary occur: a rebuild that succeeds, and one
    whose engine cannot be opened, which reports the cause and still
    replaces the remembered sources. *)
Example rebuild_success_run :
  fst (rebuild_vector_db sample_world sample_globals ["notes.txt"]
         sample_state)
  = ("Vector database rebuilt successfully!",
     mkGlobals sample_manager ["notes.txt"] "restaurant_reviews").
Proof. vm_compute. reflexivity. Qed.

Example rebuild_failure_run :
  fst (rebuild_vector_db broken_engine_world sample_globals ["notes.txt"]
         sample_state)
  = ("Error rebuilding vector database: engine unavailable",
     mkGlobals sample_manager ["notes.txt"] "restaurant_reviews").
Proof. vm_compute. reflexivity. Qed.

(** ** C6 and C10: the error taxonomy of the loader *)

(** A path with a NUL character between [a] and [b.csv]. *)
Lemma nul_path_unresolved :
  resolve_error sample_world ("a" ++ String (ascii_of_nat 0) "b.csv")
  = Some (ValueError "embedded null byte").
Proof. reflexivity. Qed.

(** C6, as the code has it.  For every path that can be resolved: when
    the resolved path is not on disk, [_load_document] raises
    [FileNotFoundError] whose message carries the resolved absolute path;
    when it is on disk and ends with none of [.pdf], [.json], [.txt], it
    raises [ValueError] (the unsupported-format error) whose message
    carries that path.  For a path whose resolution raises [e], it raises
    [e] again and logs the path as given.  In every one of these cases the
    result is an exception, so no documents are returned. *)
Theorem load_error_taxonomy w p st :
  (resolve_error w p = None ->
   resolve w p ∉ disk st ->
   fst (_load_document w p st) =
   Raise (FileNotFoundError ("File not found: " ++ resolve w p)))
  /\ (resolve_error w p = None ->
      resolve w p ∈ disk st ->
      endswith (resolve w p) ".pdf" = false ->
      endswith (resolve w p) ".json" = false ->
      endswith (resolve w p) ".txt" = false ->
      fst (_load_document w p st) =
      Raise (ValueError ("Unsupported file type: " ++ resolve w p)))
  /\ (forall e, resolve_error w p = Some e ->
      _load_document w p st =
      (Raise e,
       with_log st [(ERROR, "Failed to load " ++ p ++ ": " ++ str_exc e)])).
Proof.
  split; [|split].
  - intros Hres Hmiss. by rewrite load_document_missing.
  - intros Hres Hthere Hpdf Hjson Htxt. run. rewrite Hres. simpl.
    rewrite (bool_decide_eq_true_2 _ Hthere). cbn [negb].
    rewrite Hpdf, Hjson, Htxt. reflexivity.
  - intros e Hres. by apply load_document_unresolved.
Qed.

Lemma load_error_taxonomy_witness :
  fst (_load_document sample_world "gone.txt" sample_state) =
    Raise (FileNotFoundError "File not found: /srv/app/gone.txt")
  /\ fst (_load_document sample_world "menu.csv" sample_state) =
     Raise (ValueError "Unsupported file type: /srv/app/menu.csv")
  /\ fst (_load_document sample_world
            ("a" ++ String (ascii_of_nat 0) "b.csv") sample_state) =
     Raise (ValueError "embedded null byte").
Proof.
  split; [|split].
  - apply (proj1 (load_error_taxonomy sample_world "gone.txt" sample_state)).
    + reflexivity.
    + apply (bool_decide_unpack _). vm_compute. exact I.
  - apply (proj1 (proj2 (load_error_taxonomy sample_world "menu.csv"
                           sample_state))).
    + reflexivity.
    + apply (bool_decide_unpack _). vm_compute. exact I.
    + reflexivity.
    + reflexivity.
    + reflexivity.
  - rewrite (proj2 (proj2 (load_error_taxonomy sample_world
                             ("a" ++ String (ascii_of_nat 0) "b.csv")
                             sample_state))
               (ValueError "embedded null byte") nul_path_unresolved).
    reflexivity.
Defined.

(** C6 as stated fails: the path [a], NUL, [b.csv] names no file (neither
    it nor any resolved form of it is on disk), and loading it raises the
    resolver's [ValueError], not [FileNotFoundError]. *)
Lemma load_error_taxonomy_counterexample :
  let p := "a" ++ String (ascii_of_nat 0) "b.csv" in
  (p ∉ disk sample_state)
  /\ (resolve sample_world p ∉ disk sample_state)
  /\ fst (_load_document sample_world p sample_state)
     = Raise (ValueError "embedded null byte")
  /\ forall msg, fst (_load_document sample_world p sample_state)
                 <> Raise (FileNotFoundError msg).
Proof.
  intros p.
  split; [apply (bool_decide_unpack _); vm_compute; exact I|].
  split; [apply (bool_decide_unpack _); vm_compute; exact I|].
  split; [reflexivity|]. intros msg. discriminate.
Qed.

(** C10, as the code has it.  The missing-file check comes before the
    dispatch on the extension: for every path that can be resolved and
    whose resolved form is not on disk, whatever its extension,
    [_load_document] raises [FileNotFoundError] and not the
    unsupported-format [ValueError].  A path that cannot be resolved fails
    earlier still, with the resolver's exception. *)
Theorem missing_file_has_priority w p st :
  (resolve_error w p = None ->
   resolve w p ∉ disk st ->
   (exists msg, fst (_load_document w p st) = Raise (FileNotFoundError msg))
   /\ (forall msg, fst (_load_document w p st) <> Raise (ValueError msg)))
  /\ (forall e, resolve_error w p = Some e ->
      fst (_load_document w p st) = Raise e).
Proof.
  split.
  - intros Hres Hmiss. rewrite load_document_missing by assumption.
    cbn [fst]. split; [by eexists|]. intros msg. discriminate.
  - intros e Hres. by rewrite (load_document_unresolved w p st e Hres).
Qed.

Lemma missing_file_has_priority_witness :
  (resolve sample_world "gone.csv" ∉ disk sample_state)
  /\ format_of (resolve sample_world "gone.csv") = Unsupported
  /\ ((exists msg, fst (_load_document sample_world "gone.csv" sample_state)
                   = Raise (FileNotFoundError msg))
      /\ (forall msg, fst (_load_document sample_world "gone.csv"
                             sample_state)
                      <> Raise (ValueError msg)))
  /\ fst (_load_document sample_world
            ("reviews" ++ String (ascii_of_nat 0) ".csv") sample_state)
     = Raise (ValueError "embedded null byte").
Proof.
  assert (Hmiss : resolve sample_world "gone.csv" ∉ disk sample_state).
  { apply (bool_decide_unpack _). vm_compute. exact I. }
  split; [exact Hmiss|]. split; [reflexivity|]. split.
  - exact (proj1 (missing_file_has_priority sample_world "gone.csv"
                    sample_state) eq_refl Hmiss).
  - apply (proj2 (missing_file_has_priority sample_world
                    ("reviews" ++ String (ascii_of_nat 0) ".csv")
                    sample_state)).
    reflexivity.
Defined.

(** C10 as stated fails: the path [reviews], NUL, [.csv] is not on disk and
    has an unsupported extension; loading it raises [ValueError], the
    class of the unsupported-format error, and not [FileNotFoundError]. *)
Lemma missing_file_has_priority_counterexample :
  let p := "reviews" ++ String (ascii_of_nat 0) ".csv" in
  (p ∉ disk sample_state)
  /\ (resolve sample_world p ∉ disk sample_state)
  /\ endswith p ".csv" = true
  /\ (exists msg, fst (_load_document sample_world p sample_state)
                  = Raise (ValueError msg))
  /\ forall msg, fst (_load_document sample_world p sample_state)
                 <> Raise (FileNotFoundError msg).
Proof.
  intros p.
  split; [apply (bool_decide_unpack _); vm_compute; exact I|].
  split; [apply (bool_decide_unpack _); vm_compute; exact I|].
  split; [reflexivity|].
  split; [by exists "embedded null byte"|]. intros msg. discriminate.
Qed.

(** ** C7: what a well-formed file loads to *)

Lemma Forall_imap_all {A B} (P : B -> Prop) (l : list A) :
  forall f : nat -> A -> B, (forall i x, P (f i x)) -> Forall P (imap f l).
Proof.
  induction l as [|x l IH]; intros f Hf; cbn [imap].
  - constructor.
  - constructor; [apply Hf|]. apply IH. intros i y. apply Hf.
Qed.

Lemma source_of_pdf_page text page file_path ident :
  source_of (mkDocument text
               (<["page" := page]>
                  (<["source" := SStr file_path]>
                     (<["type" := SStr "pdf"]> ∅))) ident)
  = Some (SStr file_path).
Proof.
  unfold source_of; cbn [metadata].
  rewrite lookup_insert_ne by discriminate. by rewrite lookup_insert_eq.
Qed.

Lemma source_of_plain text file_path kind ident :
  source_of (mkDocument text
               (<["source" := SStr file_path]> (<["type" := kind]> ∅)) ident)
  = Some (SStr file_path).
Proof. unfold source_of; cbn [metadata]. by rewrite lookup_insert_eq. Qed.

(** C7, as the code has it.  For every path that resolves to a file on disk
    that has a supported extension and is well formed, [_load_document] returns
    documents: one per page of a PDF, one per element of a JSON list root,
    one for a JSON mapping root, none for another JSON root, one for a text
    file; and the [source] of every returned document is the resolved
    absolute path. *)
Theorem load_well_formed w p st :
  let file_path := resolve w p in
  resolve_error w p = None ->
  file_path ∈ disk st ->
  well_formed w file_path ->
  exists docs,
    fst (_load_document w p st) = Ok docs
    /\ length docs = document_count w file_path
    /\ Forall (fun d => source_of d = Some (SStr file_path)) docs.
Proof.
  intros file_path Hres Hthere Hwf. subst file_path.
  unfold well_formed, document_count, format_of in *. run.
  rewrite Hres. simpl.
  rewrite (bool_decide_eq_true_2 _ Hthere). cbn [negb].
  destruct (endswith (resolve w p) ".pdf").
  { destruct Hwf as [pages ->]. cbn. eexists. split; [reflexivity|]. split.
    - by rewrite length_imap.
    - apply Forall_imap_all. intros i text. apply source_of_pdf_page. }
  destruct (endswith (resolve w p) ".json").
  { destruct Hwf as [data ->]. destruct data; cbn;
      (eexists; split; [reflexivity|]; split;
       [try reflexivity | try constructor]).
    - by rewrite length_imap.
    - apply Forall_imap_all. intros i item. apply source_of_plain.
    - apply source_of_plain.
    - constructor. }
  destruct (endswith (resolve w p) ".txt"); [|contradiction].
  destruct Hwf as [content ->]. cbn. eexists. split; [reflexivity|].
  split; [reflexivity|]. constructor; [apply source_of_plain|constructor].
Qed.

Lemma load_well_formed_witness :
  (resolve sample_world "notes.txt" ∈ disk sample_state)
  /\ well_formed sample_world (resolve sample_world "notes.txt")
  /\ exists docs,
       fst (_load_document sample_world "notes.txt" sample_state) = Ok docs
       /\ length docs = 1
       /\ Forall (fun d => source_of d = Some (SStr "/srv/app/notes.txt")) docs.
Proof.
  assert (Hthere : resolve sample_world "notes.txt" ∈ disk sample_state).
  { apply (bool_decide_unpack _). vm_compute. exact I. }
  assert (Hwf : well_formed sample_world (resolve sample_world "notes.txt")).
  { exists "Great pizza, slow service.". reflexivity. }
  split; [exact Hthere|]. split; [exact Hwf|].
  exact (load_well_formed sample_world "notes.txt" sample_state eq_refl
           Hthere Hwf).
Defined.

(** C7 as stated fails twice on the sample world.  [empty.json] is a
    well-formed JSON file and loads to no document at all; [notes.txt] is a
    well-formed text file whose only document has the resolved path
    [/srv/app/notes.txt] as its source, not the path the caller gave. *)
Lemma load_well_formed_counterexample :
  ((resolve sample_world "empty.json" ∈ disk sample_state)
   /\ well_formed sample_world (resolve sample_world "empty.json")
   /\ fst (_load_document sample_world "empty.json" sample_state) = Ok [])
  /\ ((resolve sample_world "notes.txt" ∈ disk sample_state)
      /\ well_formed sample_world (resolve sample_world "notes.txt")
      /\ exists d,
           fst (_load_document sample_world "notes.txt" sample_state) = Ok [d]
           /\ source_of d = Some (SStr "/srv/app/notes.txt")
           /\ source_of d <> Some (SStr "notes.txt")).
Proof.
  split; (split; [apply (bool_decide_unpack _); vm_compute; exact I|]).
  - split; [exists (JList []); reflexivity | reflexivity].
  - split; [exists "Great pizza, slow service."; reflexivity|].
    eexists. split; [reflexivity|].
    rewrite source_of_plain. split; [reflexivity | discriminate].
Qed.

(** ** C2: the lifecycle of a collection *)

(** C2, as the code has it.  A collection is present when its storage
    location is on disk.
    - A rebuild whose engine open succeeds leaves it present, also when no
      document was loaded.
    - A rebuild that loads no document, and a rebuild of a collection that
      is already present, insert nothing.
    - A rebuild of an absent collection that loads at least one document
      inserts all of them, when the engine accepts them. *)
Theorem collection_lifecycle w self topic sources md st :
  let path := _get_collection_path self topic in
  let docs := flat_map (loaded w (disk st)) sources in
  let st' := snd (create_or_update_collection w self topic sources md st) in
  (chroma_init_error w path = None -> path ∈ disk st')
  /\ (docs = [] \/ path ∈ disk st ->
      ingestions st' = ingestions st
      /\ forall dir, collection_content st' dir = collection_content st dir)
  /\ (path ∉ disk st -> docs <> [] ->
      chroma_init_error w path = None ->
      chroma_add_error w path docs = None ->
      ingestions st' = (ingestions st ++ [(path, docs)])%list
      /\ collection_content st' path
         = (collection_content st path ++ docs)%list).
Proof.
  intros path docs st'. subst st'.
  destruct (create_or_update_collection_run w self topic sources md st)
    as (l & _ & Hrun).
  fold path docs in Hrun.
  assert (Hclosed : docs = [] \/ path ∈ disk st ->
                  negb (bool_decide (path ∈ disk st)) && truthy docs = false).
  { intros [->|Hin].
    - by rewrite andb_false_r.
    - by rewrite (bool_decide_eq_true_2 _ Hin). }
  split.
  { intros Hinit. rewrite Hinit in Hrun.
    destruct (negb (bool_decide (path ∈ disk st)) && truthy docs);
      [destruct (chroma_add_error w path docs)|];
      rewrite Hrun; cbn [snd disk]; apply elem_of_union_l;
      by apply elem_of_singleton. }
  split.
  { intros Hcase. destruct (chroma_init_error w path); [by rewrite Hrun|].
    rewrite (Hclosed Hcase) in Hrun. rewrite Hrun. split; [reflexivity|].
    intros dir. unfold collection_content at 1. cbn [snd chroma].
    apply content_reopened. }
  intros Habsent Hdocs Hinit Hadd. rewrite Hinit in Hrun.
  rewrite (bool_decide_eq_false_2 _ Habsent) in Hrun. cbn [negb andb] in Hrun.
  destruct docs; [done|]. cbn [truthy] in Hrun. rewrite Hadd in Hrun.
  rewrite Hrun. split; [reflexivity|].
  unfold collection_content at 1. cbn [snd chroma].
  by rewrite lookup_insert_eq.
Qed.

Lemma collection_lifecycle_witness :
  let path := _get_collection_path sample_manager "t2" in
  path ∈ disk after_empty_rebuild
  /\ ingestions after_empty_rebuild = ingestions sample_state
  /\ forall dir, collection_content after_empty_rebuild dir
                 = collection_content sample_state dir.
Proof.
  intros path.
  destruct (collection_lifecycle sample_world sample_manager "t2"
              ["missing.txt"] None sample_state) as (Hopen & Hzero & _).
  split.
  - apply Hopen. reflexivity.
  - apply Hzero. left. vm_compute. reflexivity.
Defined.

(** C2 as stated fails: topic [t2] is absent, the rebuild loads zero
    documents, and afterwards the storage location is on disk, the
    collection is empty and [get_retriever] returns a handle on it. *)
Lemma collection_lifecycle_counterexample :
  let path := _get_collection_path sample_manager "t2" in
  (path ∉ disk sample_state)
  /\ fst (load_sources sample_world ["missing.txt"] [] sample_state) = Ok []
  /\ path ∈ disk after_empty_rebuild
  /\ collection_content after_empty_rebuild path = []
  /\ fst (get_retriever sample_world sample_manager "t2" after_empty_rebuild)
     = Ok (mkRetriever "t2" path 5).
Proof.
  intros path. split; [apply (bool_decide_unpack _); vm_compute; exact I|].
  split; [vm_compute; reflexivity|].
  split; [apply (bool_decide_unpack _); vm_compute; exact I|].
  split; vm_compute; reflexivity.
Qed.

(** ** C4: a source that fails to load *)

(** C4, as the code has it.  In every call of
    [create_or_update_collection]:
    - the loading loop returns, whatever the sources do, and its result is
      the documents of the sources that load, in source order;
    - each source whose load raises [e] leaves the record
      "Skipping <source>: <str(e)>" at error level in the log;
    - when the storage location was absent and the engine accepts the
      batch, the call returns a retriever and the collected documents are
      what was inserted; when the location was already there, nothing is
      inserted. *)
Theorem failed_source_is_skipped w self topic sources md st :
  let path := _get_collection_path self topic in
  let docs := flat_map (loaded w (disk st)) sources in
  let result := create_or_update_collection w self topic sources md st in
  fst (load_sources w sources [] st) = Ok docs
  /\ (forall s e, s ∈ sources ->
        fst (_load_document w s st) = Raise e ->
        loaded w (disk st) s = []
        /\ (ERROR, "Skipping " ++ s ++ ": " ++ str_exc e) ∈ log (snd result))
  /\ (forall s ds, s ∈ sources ->
        fst (_load_document w s st) = Ok ds ->
        forall d, d ∈ ds -> d ∈ docs)
  /\ (path ∉ disk st ->
      chroma_init_error w path = None ->
      chroma_add_error w path docs = None ->
      fst result = Ok (mkRetriever topic path 5)
      /\ collection_content (snd result) path
         = (collection_content st path ++ docs)%list)
  /\ (path ∈ disk st ->
      ingestions (snd result) = ingestions st
      /\ collection_content (snd result) path = collection_content st path).
Proof.
  intros path docs result. subst result.
  destruct (create_or_update_collection_run w self topic sources md st)
    as (l & Hlog & Hrun).
  fold path docs in Hrun.
  split.
  { destruct (load_sources_run w sources [] st) as (l' & -> & _).
    reflexivity. }
  split.
  { intros s e Hs He. rewrite load_document_result in He. split.
    - unfold loaded. by rewrite He.
    - specialize (Hlog s e Hs He).
      assert (Hin : forall tail, (ERROR, "Skipping " ++ s ++ ": " ++ str_exc e)
                                 ∈ (log st ++ l ++ tail)%list).
      { intros tail. apply elem_of_app. right. apply elem_of_app. by left. }
      destruct (chroma_init_error w path).
      { rewrite Hrun. cbn [snd with_log log]. apply elem_of_app. by right. }
      destruct (negb (bool_decide (path ∈ disk st)) && truthy docs);
        [destruct (chroma_add_error w path docs)|];
        rewrite Hrun; cbn [snd log]; try apply Hin.
      apply elem_of_app. by right. }
  split.
  { intros s ds Hs Hds d Hd. rewrite load_document_result in Hds.
    subst docs. apply list_elem_of_In, in_flat_map.
    exists s. split; [by apply list_elem_of_In|].
    unfold loaded. rewrite Hds. by apply list_elem_of_In. }
  split.
  { intros Habsent Hinit Hadd. rewrite Hinit in Hrun.
    rewrite (bool_decide_eq_false_2 _ Habsent) in Hrun.
    cbn [negb andb] in Hrun.
    destruct (truthy docs) eqn:Hdocs.
    - rewrite Hadd in Hrun. rewrite Hrun. split; [reflexivity|].
      unfold collection_content at 1. cbn [snd chroma].
      by rewrite lookup_insert_eq.
    - rewrite Hrun. split; [reflexivity|].
      destruct docs; [|discriminate].
      unfold collection_content at 1. cbn [snd chroma].
      by rewrite lookup_insert_eq, app_nil_r. }
  intros Hpresent.
  rewrite (bool_decide_eq_true_2 _ Hpresent) in Hrun. cbn [negb andb] in Hrun.
  destruct (chroma_init_error w path); rewrite Hrun; [by split|].
  split; [reflexivity|].
  unfold collection_content at 1. cbn [snd chroma]. apply content_reopened.
Qed.

Lemma failed_source_is_skipped_witness :
  let path := _get_collection_path sample_manager "t1" in
  let sources := ["missing.txt"; "notes.txt"] in
  let result := create_or_update_collection sample_world sample_manager "t1"
                  sources None sample_state in
  (ERROR, "Skipping missing.txt: File not found: /srv/app/missing.txt")
    ∈ log (snd result)
  /\ fst result = Ok (mkRetriever "t1" path 5)
  /\ collection_content (snd result) path
     = (collection_content sample_state path
        ++ flat_map (loaded sample_world (disk sample_state)) sources)%list.
Proof.
  intros path sources result.
  destruct (failed_source_is_skipped sample_world sample_manager "t1"
              sources None sample_state) as (_ & Hskip & _ & Hnew & _).
  split.
  - apply (Hskip "missing.txt"
             (FileNotFoundError "File not found: /srv/app/missing.txt")).
    + constructor.
    + vm_compute. reflexivity.
  - apply Hnew.
    + apply (bool_decide_unpack _). vm_compute. exact I.
    + reflexivity.
    + reflexivity.
Defined.

(** C4 as stated fails: topic [t2] is present (and empty) after an earlier
    rebuild; a rebuild from a missing path and [notes.txt] skips the first,
    loads the document of the second, and ingests nothing. *)
Lemma failed_source_is_skipped_counterexample :
  let path := _get_collection_path sample_manager "t2" in
  let result := create_or_update_collection sample_world sample_manager "t2"
                  ["missing.txt"; "notes.txt"] None after_empty_rebuild in
  exists d,
    fst (_load_document sample_world "notes.txt" after_empty_rebuild) = Ok [d]
    /\ fst result = Ok (mkRetriever "t2" path 5)
    /\ (d ∉ collection_content (snd result) path)
    /\ ingestions (snd result) = [].
Proof.
  intros path result. eexists. split; [vm_compute; reflexivity|].
  split; [vm_compute; reflexivity|]. split.
  - replace (collection_content (snd result) path) with (@nil Document)
      by (vm_compute; reflexivity).
    apply not_elem_of_nil.
  - vm_compute. reflexivity.
Qed.

(** ** C5: a rebuild from a single missing path *)

(** C5, as the code has it.  When [rebuild_vector_db] is called with a
    single source whose resolved path is not on disk, no document is
    ingested; if the engine opens the collection the status is the success
    message and the storage location exists afterwards; the status is a
    failure message only if the engine cannot be opened, and then it
    carries the engine's cause. *)
Theorem rebuild_single_missing_source w g p st :
  let path := _get_collection_path (db_manager g) (current_topic g) in
  let status := fst (fst (rebuild_vector_db w g [p] st)) in
  let st' := snd (rebuild_vector_db w g [p] st) in
  resolve w p ∉ disk st ->
  ingestions st' = ingestions st
  /\ (forall dir, collection_content st' dir = collection_content st dir)
  /\ (chroma_init_error w path = None ->
      status = "Vector database rebuilt successfully!" /\ path ∈ disk st')
  /\ (forall e, chroma_init_error w path = Some e ->
      status = "Error rebuilding vector database: " ++ str_exc e).
Proof.
  intros path status st' Hmiss. subst status st'.
  rewrite rebuild_vector_db_run.
  destruct (create_or_update_collection_run w (db_manager g) (current_topic g)
              [p] (Some rebuild_metadata) st) as (l & _ & Hrun).
  fold path in Hrun.
  assert (Hnone : flat_map (loaded w (disk st)) [p] = []).
  { cbn [flat_map]. unfold loaded. rewrite <- load_document_result.
    destruct (load_document_absent w p st Hmiss) as [e ->]. reflexivity. }
  rewrite Hnone in Hrun. cbn [truthy] in Hrun.
  rewrite andb_false_r in Hrun.
  destruct (chroma_init_error w path) as [e0|]; rewrite Hrun; cbn [fst snd].
  - split; [reflexivity|]. split; [reflexivity|]. split; [discriminate|].
    intros e [= ->]. reflexivity.
  - split; [reflexivity|]. split.
    + intros dir. unfold collection_content at 1. cbn [chroma].
      apply content_reopened.
    + split; [|discriminate]. intros _. split; [reflexivity|].
      cbn [disk]. apply elem_of_union_l. by apply elem_of_singleton.
Qed.

Lemma rebuild_single_missing_source_witness :
  let path := _get_collection_path sample_manager "restaurant_reviews" in
  let run := rebuild_vector_db sample_world sample_globals ["missing.txt"]
               sample_state in
  (resolve sample_world "missing.txt" ∉ disk sample_state)
  /\ ingestions (snd run) = ingestions sample_state
  /\ fst (fst run) = "Vector database rebuilt successfully!"
  /\ path ∈ disk (snd run).
Proof.
  intros path run.
  assert (Hmiss : resolve sample_world "missing.txt" ∉ disk sample_state).
  { apply (bool_decide_unpack _). vm_compute. exact I. }
  destruct (rebuild_single_missing_source sample_world sample_globals
              "missing.txt" sample_state Hmiss) as (Hing & _ & Hopen & _).
  split; [exact Hmiss|]. split; [exact Hing|]. apply Hopen. reflexivity.
Defined.

(** C5 as stated fails: on the fresh topic [restaurant_reviews], a rebuild
    from the single missing path [missing.txt] ingests nothing and reports
    success, not a failure. *)
Lemma rebuild_single_missing_source_counterexample :
  let path := _get_collection_path sample_manager "restaurant_reviews" in
  let run := rebuild_vector_db sample_world sample_globals ["missing.txt"]
               sample_state in
  (path ∉ disk sample_state)
  /\ (resolve sample_world "missing.txt" ∉ disk sample_state)
  /\ ingestions (snd run) = []
  /\ collection_content (snd run) path = []
  /\ fst (fst run) = "Vector database rebuilt successfully!"
  /\ is_failure_status (fst (fst run)) = false.
Proof.
  intros path run.
  split; [apply (bool_decide_unpack _); vm_compute; exact I|].
  split; [apply (bool_decide_unpack _); vm_compute; exact I|].
  repeat split; vm_compute; reflexivity.
Qed.

(** * Further properties of the code *)

(** ** Strings *)

Lemma string_app_cons (c : ascii) (a b : string) :
  String c a ++ b = String c (a ++ b).
Proof. reflexivity. Qed.

Lemma string_app_assoc (a b c : string) : (a ++ b) ++ c = a ++ b ++ c.
Proof.
  induction a as [|x a IH]; [reflexivity|].
  rewrite !string_app_cons. by rewrite IH.
Qed.

Lemma string_app_nil_r (a : string) : a ++ "" = a.
Proof.
  induction a as [|x a IH]; [reflexivity|].
  rewrite string_app_cons. by rewrite IH.
Qed.

Lemma string_length_app (a b : string) :
  String.length (a ++ b) = String.length a + String.length b.
Proof.
  induction a as [|x a IH]; [reflexivity|].
  rewrite string_app_cons. cbn [String.length]. by rewrite IH.
Qed.

Lemma string_app_cancel_l (a x y : string) : a ++ x = a ++ y -> x = y.
Proof.
  induction a as [|c a IH]; [done|].
  rewrite !string_app_cons. intros [= H]. by apply IH.
Qed.

Lemma substring_whole (s : string) : substring 0 (String.length s) s = s.
Proof.
  induction s as [|c s IH]; [reflexivity|].
  cbn [String.length substring]. by rewrite IH.
Qed.

Lemma substring_of_prefix (pre rest : string) :
  substring 0 (String.length pre) (pre ++ rest) = pre.
Proof.
  induction pre as [|c pre IH].
  - by destruct rest.
  - rewrite string_app_cons. cbn [String.length substring]. by rewrite IH.
Qed.

Lemma substring_of_suffix (pre suf : string) :
  substring (String.length pre) (String.length suf) (pre ++ suf) = suf.
Proof.
  induction pre as [|c pre IH]; [apply substring_whole|].
  rewrite string_app_cons. cbn [String.length substring]. exact IH.
Qed.

Lemma substring_is_prefix (k : nat) : forall s : string,
  exists rest, s = substring 0 k s ++ rest.
Proof.
  induction k as [|k IH]; intros s.
  - exists s. by destruct s.
  - destruct s as [|c s]; [by exists ""|].
    destruct (IH s) as [rest Hrest]. exists rest.
    cbn [substring]. rewrite string_app_cons. by rewrite <- Hrest.
Qed.

Lemma string_split_at (k : nat) : forall s : string,
  k <= String.length s ->
  exists pre suf, s = pre ++ suf /\ String.length pre = k.
Proof.
  induction k as [|k IH]; intros s Hk.
  - by exists "", s.
  - destruct s as [|c s]; cbn [String.length] in Hk; [lia|].
    destruct (IH s) as (pre & suf & -> & Hlen); [lia|].
    exists (String c pre), suf. cbn [String.length]. by rewrite Hlen.
Qed.

(** [startswith] and [endswith] decide "is a prefix" and "is a suffix". *)
Lemma startswith_iff (s pre : string) :
  startswith s pre = true <-> exists rest, s = pre ++ rest.
Proof.
  unfold startswith. rewrite String.eqb_eq. split.
  - intros H. destruct (substring_is_prefix (String.length pre) s) as [rest Hr].
    exists rest. by rewrite H in Hr.
  - intros [rest ->]. apply substring_of_prefix.
Qed.

Lemma endswith_iff (s suf : string) :
  endswith s suf = true <-> exists pre, s = pre ++ suf.
Proof.
  unfold endswith. rewrite andb_true_iff, Nat.leb_le, String.eqb_eq. split.
  - intros [Hle Heq].
    destruct (string_split_at (String.length s - String.length suf) s)
      as (pre & rest & Hs & Hlen); [lia|].
    subst s. exists pre. rewrite string_length_app in Heq, Hlen, Hle.
    replace (String.length pre + String.length rest - String.length suf)
      with (String.length pre) in Heq by lia.
    replace (String.length suf) with (String.length rest) in Heq by lia.
    rewrite substring_of_suffix in Heq. by rewrite Heq.
  - intros [pre ->]. rewrite string_length_app. split; [lia|].
    replace (String.length pre + String.length suf - String.length suf)
      with (String.length pre) by lia.
    apply substring_of_suffix.
Qed.

(** Two suffixes of one string: the shorter is a suffix of the longer. *)
Lemma suffixes_nest (p1 : string) : forall p2 a b : string,
  p1 ++ a = p2 ++ b -> String.length a <= String.length b ->
  exists c, b = c ++ a.
Proof.
  induction p1 as [|x p1 IH]; intros p2 a b Heq Hlen.
  - change ("" ++ a) with a in Heq. subst a.
    rewrite string_length_app in Hlen.
    destruct p2; cbn [String.length] in Hlen; [by exists ""|lia].
  - destruct p2 as [|y p2].
    + change ("" ++ b) with b in Heq. subst b. by exists (String x p1).
    + rewrite !string_app_cons in Heq. injection Heq as _ Heq.
      by apply (IH p2).
Qed.

Lemma endswith_nest (s a b : string) :
  endswith s a = true -> endswith s b = true ->
  String.length a <= String.length b -> endswith b a = true.
Proof.
  rewrite !endswith_iff. intros [p1 ->] [p2 Heq] Hlen.
  by apply (suffixes_nest p1 p2).
Qed.

(** ** The dispatch on the extension *)

Lemma endswith_self_suffix (stem suf : string) :
  endswith (stem ++ suf) suf = true.
Proof. apply endswith_iff. by exists stem. Qed.

Lemma json_is_not_pdf (s : string) :
  endswith s ".json" = true -> endswith s ".pdf" = false.
Proof.
  intros Hjson. destruct (endswith s ".pdf") eqn:Hpdf; [|reflexivity].
  assert (H : endswith ".json" ".pdf" = true).
  { apply (endswith_nest s); [exact Hpdf|exact Hjson|cbn; lia]. }
  discriminate H.
Qed.

Lemma txt_is_not_pdf (s : string) :
  endswith s ".txt" = true -> endswith s ".pdf" = false.
Proof.
  intros Htxt. destruct (endswith s ".pdf") eqn:Hpdf; [|reflexivity].
  assert (H : endswith ".txt" ".pdf" = true).
  { apply (endswith_nest s); [exact Hpdf|exact Htxt|cbn; lia]. }
  discriminate H.
Qed.

Lemma txt_is_not_json (s : string) :
  endswith s ".txt" = true -> endswith s ".json" = false.
Proof.
  intros Htxt. destruct (endswith s ".json") eqn:Hjson; [|reflexivity].
  assert (H : endswith ".json" ".txt" = true).
  { apply (endswith_nest s); [exact Htxt|exact Hjson|cbn; lia]. }
  discriminate H.
Qed.

(** X1.  The three suffix tests of [_load_document] exclude each other,
    so each branch of the [if]/[elif] chain is taken exactly when its own
    test succeeds, whatever the order of the chain; in particular a path
    [stem.pdf], [stem.json] or [stem.txt] reaches the loader of its
    extension for every stem. *)
Theorem suffix_dispatch (s stem : string) :
  (format_of s = PDF <-> endswith s ".pdf" = true)
  /\ (format_of s = JSON <-> endswith s ".json" = true)
  /\ (format_of s = TXT <-> endswith s ".txt" = true)
  /\ format_of (stem ++ ".pdf") = PDF
  /\ format_of (stem ++ ".json") = JSON
  /\ format_of (stem ++ ".txt") = TXT.
Proof.
  assert (Hiff : forall t,
            (format_of t = PDF <-> endswith t ".pdf" = true)
            /\ (format_of t = JSON <-> endswith t ".json" = true)
            /\ (format_of t = TXT <-> endswith t ".txt" = true)).
  { intros t. unfold format_of.
    pose proof (json_is_not_pdf t) as Hjp.
    pose proof (txt_is_not_pdf t) as Htp.
    pose proof (txt_is_not_json t) as Htj.
    destruct (endswith t ".pdf"), (endswith t ".json"), (endswith t ".txt");
      repeat split; intros; try done;
      try (by specialize (Hjp eq_refl)); try (by specialize (Htp eq_refl));
      try (by specialize (Htj eq_refl)). }
  destruct (Hiff s) as (H1 & H2 & H3).
  repeat split; try tauto.
  - apply (Hiff (stem ++ ".pdf")), endswith_self_suffix.
  - apply (Hiff (stem ++ ".json")), endswith_self_suffix.
  - apply (Hiff (stem ++ ".txt")), endswith_self_suffix.
Qed.

(** ** What each loader builds *)

(** X2.  A PDF that is on disk and can be read loads to one document per
    page, in page order, and nothing is logged: the document of page [k]
    (counted from 0) has the page's text as content, also when the text is
    empty, the 1-based page number [k + 1], the resolved path as source,
    type [pdf] and id [pdf_k]. *)
Theorem load_pdf_pages w p st pages :
  let file_path := resolve w p in
  resolve_error w p = None ->
  file_path ∈ disk st ->
  endswith file_path ".pdf" = true ->
  pdf_pages w file_path = Ok pages ->
  exists docs,
    _load_document w p st = (Ok docs, st)
    /\ length docs = length pages
    /\ forall k text, pages !! k = Some text ->
         docs !! k =
         Some (mkDocument text
                 (<["page" := SInt (Z.of_nat k + 1)]>
                    (<["source" := SStr file_path]>
                       (<["type" := SStr "pdf"]> ∅)))
                 ("pdf_" ++ str_nat k)).
Proof.
  intros file_path Hres Hthere Hpdf Hpages. subst file_path. run.
  rewrite Hres. simpl.
  rewrite (bool_decide_eq_true_2 _ Hthere), Hpdf, Hpages. cbn.
  eexists. split; [reflexivity|]. split; [by rewrite length_imap|].
  intros k text Hk. by rewrite list_lookup_imap, Hk.
Qed.

Lemma load_pdf_pages_witness :
  exists docs,
    _load_document library_world "menu.pdf" library_state
    = (Ok docs, library_state)
    /\ length docs = 2
    /\ forall k text, ["Starters"; ""] !! k = Some text ->
         docs !! k =
         Some (mkDocument text
                 (<["page" := SInt (Z.of_nat k + 1)]>
                    (<["source" := SStr "/srv/app/menu.pdf"]>
                       (<["type" := SStr "pdf"]> ∅)))
                 ("pdf_" ++ str_nat k)).
Proof.
  apply (load_pdf_pages library_world "menu.pdf" library_state
           ["Starters"; ""]).
  - reflexivity.
  - apply (bool_decide_unpack _). vm_compute. exact I.
  - reflexivity.
  - reflexivity.
Defined.

(** X3.  A JSON file on disk whose root is a list of [N] elements loads
    to [N] documents in element order, and nothing is logged: the document
    of element [k] has [str(item)] as content, the resolved path as source,
    type [json_list_item] and id [json_k]. *)
Theorem load_json_list w p st items :
  let file_path := resolve w p in
  resolve_error w p = None ->
  file_path ∈ disk st ->
  endswith file_path ".json" = true ->
  json_load w file_path = Ok (JList items) ->
  exists docs,
    _load_document w p st = (Ok docs, st)
    /\ length docs = length items
    /\ forall k item, items !! k = Some item ->
         docs !! k =
         Some (mkDocument (py_str w item)
                 (<["source" := SStr file_path]>
                    (<["type" := SStr "json_list_item"]> ∅))
                 ("json_" ++ str_nat k)).
Proof.
  intros file_path Hres Hthere Hjson Hload. subst file_path.
  pose proof (json_is_not_pdf _ Hjson) as Hpdf. run.
  rewrite Hres. simpl.
  rewrite (bool_decide_eq_true_2 _ Hthere), Hpdf, Hjson, Hload. cbn.
  eexists. split; [reflexivity|]. split; [by rewrite length_imap|].
  intros k item Hk. by rewrite list_lookup_imap, Hk.
Qed.

Lemma load_json_list_witness :
  exists docs,
    _load_document library_world "scores.json" library_state
    = (Ok docs, library_state)
    /\ length docs = 2
    /\ forall k item, [JInt 4; JInt 5] !! k = Some item ->
         docs !! k =
         Some (mkDocument "item"
                 (<["source" := SStr "/srv/app/scores.json"]>
                    (<["type" := SStr "json_list_item"]> ∅))
                 ("json_" ++ str_nat k)).
Proof.
  apply (load_json_list library_world "scores.json" library_state
           [JInt 4; JInt 5]).
  - reflexivity.
  - apply (bool_decide_unpack _). vm_compute. exact I.
  - reflexivity.
  - reflexivity.
Defined.

(** X4.  A JSON file on disk whose root is not a list: a mapping loads to
    exactly one document, whose content is [json.dumps(data, indent=2)],
    with type [json_document] and id [json_0]; any other root (null, a
    boolean, a number, a string) loads to no document.  Neither case
    raises nor logs. *)
Theorem load_json_root w p st data :
  let file_path := resolve w p in
  resolve_error w p = None ->
  file_path ∈ disk st ->
  endswith file_path ".json" = true ->
  json_load w file_path = Ok data ->
  (forall items, data <> JList items) ->
  _load_document w p st =
  (Ok match data with
      | JDict _ =>
          [mkDocument (json_dumps w data)
             (<["source" := SStr file_path]>
                (<["type" := SStr "json_document"]> ∅))
             "json_0"]
      | _ => []
      end, st).
Proof.
  intros file_path Hres Hthere Hjson Hload Hroot. subst file_path.
  pose proof (json_is_not_pdf _ Hjson) as Hpdf. run.
  rewrite Hres. simpl.
  rewrite (bool_decide_eq_true_2 _ Hthere), Hpdf, Hjson, Hload.
  destruct data; try reflexivity. by destruct (Hroot items).
Qed.

Lemma load_json_root_witness :
  let w := mkWorld sample_resolve_error sample_resolve
             (read_text sample_world)
             (fun _ => Ok (JStr "just a string")) (pdf_pages sample_world)
             (py_str sample_world) (json_dumps sample_world)
             (fun _ => None) (fun _ => true) (fun _ _ => None) in
  _load_document w "empty.json" sample_state = (Ok [], sample_state).
Proof.
  intros w.
  apply (load_json_root w "empty.json" sample_state (JStr "just a string")).
  - reflexivity.
  - apply (bool_decide_unpack _). vm_compute. exact I.
  - reflexivity.
  - reflexivity.
  - discriminate.
Defined.

(** X5.  A text file on disk that can be read loads to exactly one
    document: the whole file as content, the resolved path as source, type
    [text] and id [text_0]; nothing is logged. *)
Theorem load_text_file w p st content :
  let file_path := resolve w p in
  resolve_error w p = None ->
  file_path ∈ disk st ->
  endswith file_path ".txt" = true ->
  read_text w file_path = Ok content ->
  _load_document w p st =
  (Ok [mkDocument content
         (<["source" := SStr file_path]> (<["type" := SStr "text"]> ∅))
         "text_0"], st).
Proof.
  intros file_path Hres Hthere Htxt Hread. subst file_path.
  pose proof (txt_is_not_pdf _ Htxt) as Hpdf.
  pose proof (txt_is_not_json _ Htxt) as Hjson. run.
  rewrite Hres. simpl.
  by rewrite (bool_decide_eq_true_2 _ Hthere), Hpdf, Hjson, Htxt, Hread.
Qed.

Lemma load_text_file_witness :
  _load_document library_world "more.txt" library_state =
  (Ok [mkDocument "Cold pasta."
         (<["source" := SStr "/srv/app/more.txt"]>
            (<["type" := SStr "text"]> ∅))
         "text_0"], library_state).
Proof.
  apply (load_text_file library_world "more.txt" library_state "Cold pasta.").
  - reflexivity.
  - apply (bool_decide_unpack _). vm_compute. exact I.
  - reflexivity.
  - reflexivity.
Defined.

(** X6.  When the reader of a supported file raises [e] (a malformed PDF,
    invalid JSON, an I/O failure), [_load_document] raises the same [e],
    returns no document, and leaves exactly two error records: the
    loader's own and then "Failed to load <resolved path>: <str(e)>". *)
Theorem load_reader_failure w p st e :
  let file_path := resolve w p in
  resolve_error w p = None ->
  file_path ∈ disk st ->
  reader_failure w file_path = Some e ->
  _load_document w p st =
  (Raise e,
   with_log st
     [(ERROR, "Error loading " ++ loader_name (format_of file_path) ++ " "
              ++ file_path ++ ": " ++ str_exc e);
      (ERROR, "Failed to load " ++ file_path ++ ": " ++ str_exc e)]).
Proof.
  intros file_path Hres Hthere Hfail. subst file_path.
  unfold reader_failure, format_of in *. destruct st as [d c g l]. run.
  rewrite Hres. simpl.
  rewrite (bool_decide_eq_true_2 _ Hthere). cbn [negb].
  destruct (endswith (resolve w p) ".pdf").
  { destruct (pdf_pages w (resolve w p)); [discriminate|].
    injection Hfail as ->. log_eq. }
  destruct (endswith (resolve w p) ".json").
  { destruct (json_load w (resolve w p)); [discriminate|].
    injection Hfail as ->. log_eq. }
  destruct (endswith (resolve w p) ".txt"); [|discriminate].
  destruct (read_text w (resolve w p)); [discriminate|].
  injection Hfail as ->. log_eq.
Qed.

Lemma load_reader_failure_witness :
  _load_document library_world "broken.pdf" library_state =
  (Raise (OtherError "PdfReadError" "EOF marker not found"),
   with_log library_state
     [(ERROR, "Error loading PDF /srv/app/broken.pdf: EOF marker not found");
      (ERROR, "Failed to load /srv/app/broken.pdf: EOF marker not found")]).
Proof.
  apply (load_reader_failure library_world "broken.pdf" library_state).
  - reflexivity.
  - apply (bool_decide_unpack _). vm_compute. exact I.
  - reflexivity.
Defined.

(** ** Document ids *)

Lemma NoDup_fmap_imap {A B C} (g : B -> C) (f : nat -> A -> B) (l : list A) :
  (forall i j x y, g (f i x) = g (f j y) -> i = j) ->
  NoDup (g <$> imap f l).
Proof.
  intros Hinj. apply NoDup_alt. intros i j c Hi Hj.
  rewrite list_lookup_fmap, list_lookup_imap in Hi, Hj.
  destruct (l !! i) as [x|]; [|discriminate].
  destruct (l !! j) as [y|]; [|discriminate].
  cbn in Hi, Hj. apply (Hinj i j x y). congruence.
Qed.

Lemma numbered_id_inj (pre : string) (i j : nat) :
  pre ++ str_nat i = pre ++ str_nat j -> i = j.
Proof.
  intros H. apply string_app_cancel_l in H. by apply (inj pretty) in H.
Qed.

(** The documents [_load_document] returns, by cases. *)
Lemma load_document_shape w p st docs :
  fst (_load_document w p st) = Ok docs ->
  let file_path := resolve w p in
  (format_of file_path = PDF
   /\ exists pages,
        docs = imap (fun i text =>
                 mkDocument text
                   (<["page" := SInt (Z.of_nat i + 1)]>
                      (<["source" := SStr file_path]>
                         (<["type" := SStr "pdf"]> ∅)))
                   ("pdf_" ++ str_nat i)) pages)
  \/ (format_of file_path = JSON
      /\ ((exists items,
             docs = imap (fun i item =>
                      mkDocument (py_str w item)
                        (<["source" := SStr file_path]>
                           (<["type" := SStr "json_list_item"]> ∅))
                        ("json_" ++ str_nat i)) items)
          \/ (exists text,
                docs = [mkDocument text
                          (<["source" := SStr file_path]>
                             (<["type" := SStr "json_document"]> ∅))
                          "json_0"])
          \/ docs = []))
  \/ (format_of file_path = TXT
      /\ exists text,
           docs = [mkDocument text
                     (<["source" := SStr file_path]>
                        (<["type" := SStr "text"]> ∅))
                     "text_0"]).
Proof.
  intros Hload file_path. subst file_path. unfold format_of. run.
  destruct (resolve_error w p); simpl in Hload; [discriminate|].
  destruct (bool_decide (resolve w p ∈ disk st)); [|discriminate].
  cbn [negb] in Hload.
  destruct (endswith (resolve w p) ".pdf").
  { left. split; [reflexivity|].
    destruct (pdf_pages w (resolve w p)) as [pages|]; [|discriminate].
    injection Hload as <-. by exists pages. }
  right.
  destruct (endswith (resolve w p) ".json").
  { left. split; [reflexivity|].
    destruct (json_load w (resolve w p)) as [data|]; [|discriminate].
    destruct data; injection Hload as <-; eauto. }
  right.
  destruct (endswith (resolve w p) ".txt"); [|discriminate].
  split; [reflexivity|].
  destruct (read_text w (resolve w p)) as [text|]; [|discriminate].
  injection Hload as <-. by exists text.
Qed.

(** X7.  The ids of the documents returned by one call of
    [_load_document] are pairwise distinct. *)
Theorem load_ids_unique w p st docs :
  fst (_load_document w p st) = Ok docs -> NoDup (id <$> docs).
Proof.
  intros Hload.
  destruct (load_document_shape w p st docs Hload)
    as [(_ & pages & ->)|[(_ & [(items & ->)|[(text & ->)| ->]])
                         |(_ & text & ->)]].
  - apply NoDup_fmap_imap. intros i j x y. apply numbered_id_inj.
  - apply NoDup_fmap_imap. intros i j x y. apply numbered_id_inj.
  - apply NoDup_singleton.
  - apply NoDup_nil_2.
  - apply NoDup_singleton.
Qed.

Lemma load_ids_unique_witness :
  exists docs,
    fst (_load_document library_world "menu.pdf" library_state) = Ok docs
    /\ length docs = 2 /\ NoDup (id <$> docs).
Proof.
  eexists. split; [vm_compute; reflexivity|]. split; [reflexivity|].
  apply (load_ids_unique library_world "menu.pdf" library_state).
  vm_compute. reflexivity.
Defined.

Lemma load_first_id w p st d rest :
  fst (_load_document w p st) = Ok (d :: rest) ->
  id d = first_id (format_of (resolve w p)).
Proof.
  intros Hload.
  destruct (load_document_shape w p st _ Hload)
    as [(-> & pages & H)|[(-> & [(items & H)|[(text & H)|H]])
                         |(-> & text & H)]].
  - destruct pages; [discriminate|]. by injection H as -> _.
  - destruct items; [discriminate|]. by injection H as -> _.
  - by injection H as -> _.
  - discriminate.
  - by injection H as -> _.
Qed.

Lemma repeated_element_not_NoDup {A} (a : A) (xs ys zs : list A) :
  ~ NoDup (xs ++ a :: ys ++ a :: zs).
Proof.
  intros H. apply NoDup_app in H as (_ & _ & H).
  apply NoDup_cons in H as [H _]. apply H.
  apply elem_of_app. right. apply elem_of_cons. by left.
Qed.

(** X8.  Ids are numbered per source, so they collide across sources:
    whenever two sources of one rebuild have the same format and each of
    them loads at least one document, the documents collected by the
    loading loop carry a repeated id (the first id of that format). *)
Theorem ids_collide_across_sources w st l1 s1 l2 s2 l3 d1 r1 d2 r2 docs :
  fst (_load_document w s1 st) = Ok (d1 :: r1) ->
  fst (_load_document w s2 st) = Ok (d2 :: r2) ->
  format_of (resolve w s1) = format_of (resolve w s2) ->
  fst (load_sources w (l1 ++ s1 :: l2 ++ s2 :: l3) [] st) = Ok docs ->
  ~ NoDup (id <$> docs).
Proof.
  intros H1 H2 Hfmt Hdocs.
  pose proof (load_first_id _ _ _ _ _ H1) as Hid1.
  pose proof (load_first_id _ _ _ _ _ H2) as Hid2.
  rewrite <- Hfmt, <- Hid1 in Hid2.
  destruct (load_sources_run w (l1 ++ s1 :: l2 ++ s2 :: l3) [] st)
    as (l & Hrun & _).
  rewrite Hrun in Hdocs. cbn [fst app] in Hdocs. injection Hdocs as <-.
  rewrite load_document_result in H1, H2.
  rewrite flat_map_app. cbn [flat_map]. rewrite flat_map_app. cbn [flat_map].
  unfold loaded at 2 4. rewrite H1, H2.
  rewrite !fmap_app, !fmap_cons, Hid2.
  match goal with
  | |- ~ NoDup (?A ++ (?a :: ?R1) ++ ?B ++ (?a :: ?R2) ++ ?C) =>
      replace (A ++ (a :: R1) ++ B ++ (a :: R2) ++ C)%list
        with (A ++ a :: (R1 ++ B) ++ a :: (R2 ++ C))%list
        by (cbn [app]; by rewrite <- app_assoc)
  end.
  apply repeated_element_not_NoDup.
Qed.

Lemma ids_collide_across_sources_witness :
  exists docs,
    fst (load_sources library_world ["notes.txt"; "menu.pdf"; "more.txt"] []
           library_state) = Ok docs
    /\ length docs = 4
    /\ ~ NoDup (id <$> docs).
Proof.
  eexists. split; [vm_compute; reflexivity|]. split; [reflexivity|].
  eapply (ids_collide_across_sources library_world library_state
            [] "notes.txt" ["menu.pdf"] "more.txt" []).
  - vm_compute. reflexivity.
  - vm_compute. reflexivity.
  - reflexivity.
  - vm_compute. reflexivity.
Defined.

(** ** The loading loop *)

Lemma load_sources_loaded_log w sources : forall acc st,
  exists l,
    snd (load_sources w sources acc st) = with_log st l
    /\ forall s ds, s ∈ sources ->
         fst (_load_document w s (bare (disk st))) = Ok ds ->
         (INFO, "Loaded " ++ str_nat (length ds) ++ " documents from " ++ s)
         ∈ l.
Proof.
  induction sources as [|source rest IH]; intros acc st.
  - exists []. split.
    + cbn [load_sources]. unfold ret. cbn [snd]. by rewrite with_log_nil.
    + intros s ds Hs. by apply elem_of_nil in Hs.
  - cbn [load_sources].
    unfold bind at 1. unfold try_except at 1. unfold bind at 1.
    rewrite (load_document_run w source st).
    destruct (fst (_load_document w source (bare (disk st)))) as [docs|e0] eqn:E.
    + unfold bind, logger_info, ret; cbn [fst snd].
      rewrite with_log_one, with_log_app.
      match goal with
      | |- context [load_sources w rest ?a ?s] =>
          destruct (IH a s) as (l & Hrun & Hlog)
      end.
      rewrite Hrun. cbn [disk with_log] in *.
      eexists. split; [by rewrite with_log_app|].
      intros s ds Hs Hds.
      apply elem_of_cons in Hs as [->|Hs].
      * rewrite E in Hds. injection Hds as ->.
        apply elem_of_app. left. apply elem_of_app. right.
        apply list_elem_of_singleton. reflexivity.
      * apply elem_of_app. right. by apply Hlog.
    + unfold bind, logger_error, ret; cbn [fst snd].
      rewrite with_log_one, with_log_app.
      match goal with
      | |- context [load_sources w rest ?a ?s] =>
          destruct (IH a s) as (l & Hrun & Hlog)
      end.
      rewrite Hrun. cbn [disk with_log] in *.
      eexists. split; [by rewrite with_log_app|].
      intros s ds Hs Hds.
      apply elem_of_cons in Hs as [->|Hs].
      * rewrite E in Hds. discriminate.
      * apply elem_of_app. right. by apply Hlog.
Qed.

(** X9.  The loading loop of [create_or_update_collection] writes to the
    log and to nothing else: disk, stored collections and ingestion history
    are as before.  For each source that loads, it logs at info level
    "Loaded <n> documents from <source>", with [n] the number of documents
    of that source and the source as the caller spelled it. *)
Theorem loading_only_logs w sources st :
  let st' := snd (load_sources w sources [] st) in
  disk st' = disk st /\ chroma st' = chroma st
  /\ ingestions st' = ingestions st
  /\ (exists l, log st' = (log st ++ l)%list)
  /\ forall s ds, s ∈ sources ->
       fst (_load_document w s st) = Ok ds ->
       (INFO, "Loaded " ++ str_nat (length ds) ++ " documents from " ++ s)
       ∈ log st'.
Proof.
  intros st'. subst st'.
  destruct (load_sources_loaded_log w sources [] st) as (l & -> & Hlog).
  cbn [with_log disk chroma ingestions log]. repeat split.
  - by exists l.
  - intros s ds Hs Hds. rewrite load_document_result in Hds.
    apply elem_of_app. right. by apply (Hlog s ds).
Qed.

Lemma loading_only_logs_witness :
  (INFO, "Loaded 2 documents from menu.pdf")
  ∈ log (snd (load_sources library_world ["nowhere.txt"; "menu.pdf"] []
                library_state)).
Proof.
  destruct (loading_only_logs library_world ["nowhere.txt"; "menu.pdf"]
              library_state) as (_ & _ & _ & _ & Hlog).
  apply (Hlog "menu.pdf"
           (imap (fun i text =>
                    mkDocument text
                      (<["page" := SInt (Z.of_nat i + 1)]>
                         (<["source" := SStr "/srv/app/menu.pdf"]>
                            (<["type" := SStr "pdf"]> ∅)))
                      ("pdf_" ++ str_nat i)) ["Starters"; ""])).
  - apply elem_of_cons. right. apply elem_of_cons. by left.
  - vm_compute. reflexivity.
Defined.

(** ** Retrievers *)

(** X10.  [get_retriever] never changes what is observable: disk, log,
    ingestion history and the content of every collection are as before.
    When it returns, the topic's storage location is on disk and the handle
    is bound to the topic's collection at that location with [k = 5]. *)
Theorem get_retriever_reads_only w self topic st :
  let path := _get_collection_path self topic in
  let result := get_retriever w self topic st in
  disk (snd result) = disk st
  /\ log (snd result) = log st
  /\ ingestions (snd result) = ingestions st
  /\ (forall dir, collection_content (snd result) dir
                  = collection_content st dir)
  /\ forall retriever, fst result = Ok retriever ->
       retriever = mkRetriever topic path 5 /\ path ∈ disk st.
Proof.
  intros path result. subst result.
  unfold get_retriever, bind, os_path_exists, raise, ret, Chroma, as_retriever.
  fold path.
  destruct (bool_decide (path ∈ disk st)) eqn:Hpresent; cbn [negb fst snd].
  - apply bool_decide_eq_true_1 in Hpresent.
    assert (Hdisk : {[path]} ∪ disk st = disk st).
    { apply subseteq_union_1_L. by apply singleton_subseteq_l. }
    destruct (chroma_init_error w path); cbn [fst snd].
    + destruct (chroma_init_leaves_dir w path);
        cbn [disk log ingestions]; (split; [done|]);
        repeat split; discriminate.
    + cbn [disk log ingestions]. split; [exact Hdisk|].
      split; [reflexivity|]. split; [reflexivity|]. split.
      { intros dir. unfold collection_content at 1. cbn [chroma].
        apply content_reopened. }
      intros retriever [= <-]. by split.
  - repeat split; discriminate.
Qed.

Lemma get_retriever_reads_only_witness :
  fst (get_retriever sample_world sample_manager "t2" after_empty_rebuild)
  = Ok (mkRetriever "t2" "./vector_dbs/t2" 5)
  /\ ("./vector_dbs/t2" ∈ disk after_empty_rebuild).
Proof.
  destruct (get_retriever_reads_only sample_world sample_manager "t2"
              after_empty_rebuild) as (_ & _ & _ & _ & Hret).
  destruct (Hret (mkRetriever "t2" "./vector_dbs/t2" 5)) as [_ Hdisk].
  - vm_compute. reflexivity.
  - split; [vm_compute; reflexivity|exact Hdisk].
Defined.

(** X11.  Rebuild, then retrieve: when [create_or_update_collection]
    returns a retriever, [get_retriever] on the same topic right after it
    returns the same retriever and leaves the state exactly as it is. *)
Theorem retriever_after_rebuild w self topic sources md st retriever :
  let result := create_or_update_collection w self topic sources md st in
  fst result = Ok retriever ->
  get_retriever w self topic (snd result) = (Ok retriever, snd result).
Proof.
  intros result Hok. subst result.
  destruct (create_or_update_collection_run w self topic sources md st)
    as (l & _ & Hrun).
  set (path := _get_collection_path self topic) in *.
  set (docs := flat_map (loaded w (disk st)) sources) in *.
  destruct (chroma_init_error w path) as [e|] eqn:Hinit.
  { rewrite Hrun in Hok. discriminate. }
  assert (Hget : forall d c g lg x,
            c !! path = Some x ->
            get_retriever w self topic (mkState ({[path]} ∪ d) c g lg)
            = (Ok (mkRetriever topic path 5), mkState ({[path]} ∪ d) c g lg)).
  { intros d c g lg x Hx.
    unfold get_retriever, bind, os_path_exists, raise, ret, Chroma,
      as_retriever.
    fold path. cbn [disk chroma ingestions log].
    rewrite bool_decide_eq_true_2
      by (apply elem_of_union_l; by apply elem_of_singleton).
    cbn [negb]. rewrite Hinit. cbn [disk chroma ingestions log].
    rewrite Hx. cbn [default].
    rewrite insert_id by exact Hx.
    replace ({[path]} ∪ ({[path]} ∪ d)) with ({[path]} ∪ d); [reflexivity|].
    symmetry. apply subseteq_union_1_L. apply singleton_subseteq_l.
    apply elem_of_union_l. by apply elem_of_singleton. }
  destruct (negb (bool_decide (path ∈ disk st)) && truthy docs).
  - destruct (chroma_add_error w path docs).
    + rewrite Hrun in Hok. discriminate.
    + rewrite Hrun in Hok |- *. cbn [fst snd] in *. injection Hok as <-.
      eapply Hget. apply lookup_insert_eq.
  - rewrite Hrun in Hok |- *. cbn [fst snd] in *. injection Hok as <-.
    eapply Hget. apply lookup_insert_eq.
Qed.

Lemma retriever_after_rebuild_witness :
  let result := create_or_update_collection library_world sample_manager
                  "reviews" ["notes.txt"; "scores.json"] None library_state in
  fst result = Ok (mkRetriever "reviews" "./vector_dbs/reviews" 5)
  /\ get_retriever library_world sample_manager "reviews" (snd result)
     = (Ok (mkRetriever "reviews" "./vector_dbs/reviews" 5), snd result).
Proof.
  intros result.
  assert (Hok : fst result
                = Ok (mkRetriever "reviews" "./vector_dbs/reviews" 5)).
  { vm_compute. reflexivity. }
  split; [exact Hok|].
  exact (retriever_after_rebuild library_world sample_manager "reviews"
           ["notes.txt"; "scores.json"] None library_state _ Hok).
Defined.

(** ** Engine failures *)

(** X14.  Only the engine makes a rebuild fail.  [rebuild_vector_db]
    reports success exactly when the engine opens the collection and,
    if documents have to be added (the storage location was absent and at
    least one document was loaded), accepts them; otherwise the status is
    "Error rebuilding vector database: " followed by the cause the engine
    gave.  No outcome of loading the sources leads to a failure status. *)
Theorem rebuild_fails_only_with_engine w g sources st :
  let path := _get_collection_path (db_manager g) (current_topic g) in
  let docs := flat_map (loaded w (disk st)) sources in
  let status := fst (fst (rebuild_vector_db w g sources st)) in
  (status = "Vector database rebuilt successfully!"
   /\ chroma_init_error w path = None
   /\ (path ∈ disk st \/ docs = [] \/ chroma_add_error w path docs = None))
  \/ (exists e,
        status = "Error rebuilding vector database: " ++ str_exc e
        /\ (chroma_init_error w path = Some e
            \/ (chroma_init_error w path = None /\ (path ∉ disk st)
                /\ docs <> [] /\ chroma_add_error w path docs = Some e))).
Proof.
  intros path docs status. subst status. rewrite rebuild_vector_db_run.
  destruct (create_or_update_collection_run w (db_manager g) (current_topic g)
              sources (Some rebuild_metadata) st) as (l & _ & Hrun).
  fold path docs in Hrun.
  destruct (chroma_init_error w path) as [e|].
  { rewrite Hrun. right. exists e. split; [reflexivity|by left]. }
  destruct (decide (path ∈ disk st)) as [Hpresent|Habsent].
  - rewrite (bool_decide_eq_true_2 _ Hpresent) in Hrun.
    cbn [negb andb] in Hrun.
    rewrite Hrun. left. split; [reflexivity|]. split; [reflexivity|].
    by left.
  - rewrite (bool_decide_eq_false_2 _ Habsent) in Hrun.
    cbn [negb andb] in Hrun.
    destruct docs as [|d docs'] eqn:Hdocs; cbn [truthy] in Hrun.
    + rewrite Hrun. left. split; [reflexivity|]. split; [reflexivity|].
      right. by left.
    + destruct (chroma_add_error w path (d :: docs')) as [e|].
      * rewrite Hrun. right. exists e. split; [reflexivity|]. right.
        repeat split; [exact Habsent|discriminate].
      * rewrite Hrun. left. split; [reflexivity|]. split; [reflexivity|].
        right. by right.
Qed.

(** X15.  A failed first ingestion locks the topic.  When the storage
    location is absent, at least one document is loaded and the engine
    rejects the batch with [e], [create_or_update_collection] logs "Failed
    to create collection: <str(e)>" and raises [e]; the storage location
    now exists with the content it had, so every later rebuild of the topic,
    whatever its sources, ingests nothing. *)
Theorem failed_creation_locks_topic w self topic S1 md1 S2 md2 st e :
  let path := _get_collection_path self topic in
  let docs := flat_map (loaded w (disk st)) S1 in
  let first := create_or_update_collection w self topic S1 md1 st in
  let st2 := snd (create_or_update_collection w self topic S2 md2
                    (snd first)) in
  path ∉ disk st -> docs <> [] ->
  chroma_init_error w path = None ->
  chroma_add_error w path docs = Some e ->
  fst first = Raise e
  /\ (ERROR, "Failed to create collection: " ++ str_exc e) ∈ log (snd first)
  /\ path ∈ disk (snd first)
  /\ ingestions (snd first) = ingestions st
  /\ collection_content (snd first) path = collection_content st path
  /\ ingestions st2 = ingestions st
  /\ collection_content st2 path = collection_content st path.
Proof.
  intros path docs first st2 Habsent Hdocs Hinit Hadd. subst first st2.
  destruct (create_or_update_collection_run w self topic S1 md1 st)
    as (l & _ & Hrun).
  fold path docs in Hrun. rewrite Hinit in Hrun.
  rewrite (bool_decide_eq_false_2 _ Habsent) in Hrun. cbn [negb andb] in Hrun.
  destruct docs as [|d docs'] eqn:Hd; [done|]. cbn [truthy] in Hrun.
  rewrite Hadd in Hrun. rewrite Hrun. cbn [fst snd].
  set (st1 := mkState _ _ _ _).
  assert (Hpresent : path ∈ disk st1).
  { apply elem_of_union_l. by apply elem_of_singleton. }
  assert (Hcontent : collection_content st1 path = collection_content st path).
  { unfold collection_content at 1. cbn [st1 chroma]. apply content_reopened. }
  split; [reflexivity|]. split.
  { cbn [st1 log]. apply elem_of_app. right. apply elem_of_app. right.
    apply list_elem_of_singleton. reflexivity. }
  split; [exact Hpresent|]. split; [reflexivity|]. split; [exact Hcontent|].
  destruct (create_or_update_collection_run w self topic S2 md2 st1)
    as (l2 & _ & Hrun2).
  fold path in Hrun2. rewrite Hinit in Hrun2.
  rewrite (bool_decide_eq_true_2 _ Hpresent) in Hrun2.
  cbn [negb andb] in Hrun2. rewrite Hrun2. cbn [snd ingestions].
  split; [reflexivity|].
  unfold collection_content at 1. cbn [chroma].
  by rewrite content_reopened.
Qed.

Lemma failed_creation_locks_topic_witness :
  let path := "./vector_dbs/flaky" in
  let first := create_or_update_collection library_world sample_manager
                 "flaky" ["notes.txt"] None library_state in
  let st2 := snd (create_or_update_collection library_world sample_manager
                    "flaky" ["more.txt"; "menu.pdf"] None (snd first)) in
  fst first = Raise (OtherError "ConnectionError" "embedding failed")
  /\ (ERROR, "Failed to create collection: embedding failed")
     ∈ log (snd first)
  /\ path ∈ disk (snd first)
  /\ ingestions (snd first) = []
  /\ collection_content (snd first) path = []
  /\ ingestions st2 = []
  /\ collection_content st2 path = [].
Proof.
  intros path first st2.
  apply (failed_creation_locks_topic library_world sample_manager "flaky"
           ["notes.txt"] None ["more.txt"; "menu.pdf"] None library_state
           (OtherError "ConnectionError" "embedding failed")).
  - apply (bool_decide_unpack _). vm_compute. exact I.
  - vm_compute. discriminate.
  - reflexivity.
  - vm_compute. reflexivity.
Defined.

(** ** The query path *)

Lemma lstrip_blank (s : string) : lstrip s = "" <-> blank s = true.
Proof.
  unfold blank. induction s as [|c s IH]; [done|].
  cbn [lstrip list_ascii_of_string forallb].
  destruct (py_isspace c); cbn [andb]; [exact IH|]. split; discriminate.
Qed.

Lemma lstrip_head (s : string) :
  lstrip s = "" \/ exists c rest, lstrip s = String c rest /\ py_isspace c = false.
Proof.
  induction s as [|c s IH]; [by left|]. cbn [lstrip].
  destruct (py_isspace c) eqn:Hc; [exact IH|]. right. by exists c, s.
Qed.

Lemma rstrip_blank (s : string) : rstrip s = "" <-> blank s = true.
Proof.
  unfold blank. induction s as [|c s IH]; [done|].
  cbn [rstrip list_ascii_of_string forallb].
  destruct (rstrip s) as [|x kept].
  - destruct (py_isspace c); cbn [andb].
    + split; [intros _; by apply IH|done].
    + split; discriminate.
  - split; [discriminate|]. intros [_ H]%andb_true_iff.
    apply IH in H. discriminate.
Qed.

(** [question.strip()] is empty exactly for a blank question. *)
Lemma strip_blank (s : string) : strip s = "" <-> blank s = true.
Proof.
  unfold strip. split.
  - intros H. apply rstrip_blank in H.
    destruct (lstrip_head s) as [Hl|(c & rest & Hl & Hc)].
    + by apply lstrip_blank.
    + rewrite Hl in H. unfold blank in H.
      cbn [list_ascii_of_string forallb] in H. rewrite Hc in H. discriminate.
  - intros H. apply lstrip_blank in H. by rewrite H.
Qed.

Lemma append_references_closed (sources : list string) : forall acc,
  append_references acc sources = acc ++ references sources.
Proof.
  induction sources as [|source rest IH]; intros acc;
    cbn [append_references references fold_right].
  - by rewrite string_app_nil_r.
  - rewrite IH. fold (reference_item source). fold (references rest).
    unfold reference_item. by rewrite !string_app_assoc.
Qed.

Lemma get_retriever_present w self topic st :
  let path := _get_collection_path self topic in
  path ∈ disk st ->
  chroma_init_error w path = None ->
  get_retriever w self topic st
  = (Ok (mkRetriever topic path 5), reopened st path).
Proof.
  intros path Hpresent Hinit.
  unfold get_retriever, bind, os_path_exists, raise, ret, Chroma,
    as_retriever, reopened.
  fold path. rewrite (bool_decide_eq_true_2 _ Hpresent). cbn [negb].
  rewrite Hinit. cbn [vs_persist_directory vs_collection_name].
  fold (collection_content st path).
  replace ({[path]} ∪ disk st) with (disk st)
    by (symmetry; apply subseteq_union_1_L; by apply singleton_subseteq_l).
  reflexivity.
Qed.

Lemma content_of_reopened st path :
  collection_content (reopened st path) path = collection_content st path.
Proof.
  unfold collection_content at 1, reopened. cbn [chroma].
  apply content_reopened.
Qed.

(** A query on a collection that is present and that the engine opens. *)
Lemma query_restaurant_run w sv g question st :
  let path := _get_collection_path (db_manager g) (current_topic g) in
  blank question = false ->
  path ∈ disk st ->
  chroma_init_error w path = None ->
  query_restaurant w sv g question st =
  (query_outcome sv (collection_content st path) (current_sources g) question,
   reopened st path).
Proof.
  intros path Hq Hpresent Hinit.
  assert (Hstrip : String.eqb (strip question) "" = false).
  { apply String.eqb_neq. intros H. apply strip_blank in H. congruence. }
  unfold query_restaurant. rewrite Hstrip.
  unfold bind at 1.
  rewrite (get_retriever_present w (db_manager g) (current_topic g) st
             Hpresent Hinit).
  fold path. unfold bind, invoke, lift, ret, query_outcome.
  cbn [r_persist_directory r_k]. rewrite content_of_reopened.
  destruct (retriever_invoke sv (collection_content st path) 5 question)
    as [reviews|e]; [|reflexivity].
  destruct (chain_invoke sv reviews question) as [result|e]; [|reflexivity].
  rewrite append_references_closed. unfold response_page.
  by rewrite !string_app_assoc.
Qed.

Lemma rebuild_ok_present w self topic sources md st retriever :
  let path := _get_collection_path self topic in
  let result := create_or_update_collection w self topic sources md st in
  fst result = Ok retriever ->
  chroma_init_error w path = None /\ path ∈ disk (snd result).
Proof.
  intros path result Hok. subst result.
  destruct (create_or_update_collection_run w self topic sources md st)
    as (l & _ & Hrun).
  fold path in Hrun.
  assert (Hin : forall d : gset string, path ∈ {[path]} ∪ d).
  { intros d. apply elem_of_union_l. by apply elem_of_singleton. }
  destruct (chroma_init_error w path).
  { rewrite Hrun in Hok. discriminate. }
  split; [reflexivity|].
  destruct (negb (bool_decide (path ∈ disk st)) && truthy _);
    [destruct (chroma_add_error w path _)|];
    rewrite Hrun in Hok |- *; cbn [fst snd disk] in *;
    try discriminate; apply Hin.
Qed.

(** X16.  A question that is empty or made of whitespace only is refused
    with "Please enter a question about the restaurant." before anything
    is touched; any other question gets a different answer (the page or an
    error report). *)
Theorem blank_question_is_refused w sv g question st :
  (blank question = true ->
   query_restaurant w sv g question st
   = ("Please enter a question about the restaurant.", st))
  /\ (blank question = false ->
      fst (query_restaurant w sv g question st)
      <> "Please enter a question about the restaurant.").
Proof.
  split; intros Hq.
  - unfold query_restaurant. apply strip_blank in Hq. by rewrite Hq.
  - assert (Hstrip : String.eqb (strip question) "" = false).
    { apply String.eqb_neq. intros H. apply strip_blank in H. congruence. }
    unfold query_restaurant. rewrite Hstrip.
    unfold bind, invoke, lift, ret.
    destruct (get_retriever w (db_manager g) (current_topic g) st)
      as [[retriever|e] st1]; [|discriminate].
    destruct (retriever_invoke sv _ _ question) as [reviews|e];
      [|discriminate].
    destruct (chain_invoke sv reviews question) as [result|e];
      [|discriminate].
    cbn [fst]. rewrite append_references_closed, !string_app_assoc.
    discriminate.
Qed.

Lemma blank_question_is_refused_witness :
  query_restaurant sample_world sample_services sample_globals
    (String (ascii_of_nat 9) " ") sample_state
  = ("Please enter a question about the restaurant.", sample_state)
  /\ fst (query_restaurant sample_world sample_services sample_globals
            "Is the pizza good?" sample_state)
     <> "Please enter a question about the restaurant.".
Proof.
  split.
  - apply (proj1 (blank_question_is_refused sample_world sample_services
                    sample_globals (String (ascii_of_nat 9) " ")
                    sample_state)).
    reflexivity.
  - apply (proj2 (blank_question_is_refused sample_world sample_services
                    sample_globals "Is the pizza good?" sample_state)).
    reflexivity.
Defined.

(** X17.  A question asked before the topic was ever built is answered
    with "Error processing query: Collection '<topic>' does not exist",
    and nothing changes: the error of [get_retriever] is caught by
    [query_restaurant] and reported. *)
Theorem query_before_rebuild w sv g question st :
  blank question = false ->
  _get_collection_path (db_manager g) (current_topic g) ∉ disk st ->
  query_restaurant w sv g question st =
  ("Error processing query: Collection '" ++ current_topic g
   ++ "' does not exist", st).
Proof.
  intros Hq Habsent.
  assert (Hstrip : String.eqb (strip question) "" = false).
  { apply String.eqb_neq. intros H. apply strip_blank in H. congruence. }
  unfold query_restaurant. rewrite Hstrip.
  unfold bind at 1. unfold get_retriever, bind, os_path_exists, raise.
  rewrite (bool_decide_eq_false_2 _ Habsent). reflexivity.
Qed.

Lemma query_before_rebuild_witness :
  query_restaurant sample_world sample_services sample_globals
    "Is the pizza good?" sample_state =
  ("Error processing query: Collection 'restaurant_reviews' does not exist",
   sample_state).
Proof.
  apply (query_before_rebuild sample_world sample_services sample_globals
           "Is the pizza good?" sample_state).
  - reflexivity.
  - apply (bool_decide_unpack _). vm_compute. exact I.
Defined.

(** X18.  A question on a topic that is present and that the engine
    opens: the retriever is asked for the 5 nearest documents of the
    topic's collection; if it or the model fails with [e] the answer is
    "Error processing query: <str(e)>"; otherwise the answer is the page
    with the model's result followed by one "Loaded from: <source>" item
    per remembered source, in order.  Disk, log, ingestion history and the
    content of every collection are unchanged. *)
Theorem query_answer w sv g question st :
  let path := _get_collection_path (db_manager g) (current_topic g) in
  let run := query_restaurant w sv g question st in
  blank question = false ->
  path ∈ disk st ->
  chroma_init_error w path = None ->
  fst run = query_outcome sv (collection_content st path) (current_sources g)
              question
  /\ disk (snd run) = disk st /\ log (snd run) = log st
  /\ ingestions (snd run) = ingestions st
  /\ forall dir, collection_content (snd run) dir = collection_content st dir.
Proof.
  intros path run Hq Hpresent Hinit. subst run.
  rewrite (query_restaurant_run w sv g question st Hq Hpresent Hinit).
  repeat split. intros dir. unfold collection_content at 1, reopened.
  cbn [snd chroma]. apply content_reopened.
Qed.

Lemma query_answer_witness :
  let st1 := snd (rebuild_vector_db sample_world sample_globals
                    ["missing.txt"; "notes.txt"] sample_state) in
  let g1 := snd (fst (rebuild_vector_db sample_world sample_globals
                        ["missing.txt"; "notes.txt"] sample_state)) in
  fst (query_restaurant sample_world sample_services g1 "Is the pizza good?"
         st1)
  = response_page "The pizza is praised." ["missing.txt"; "notes.txt"].
Proof.
  intros st1 g1.
  destruct (query_answer sample_world sample_services g1
              "Is the pizza good?" st1) as [Hpage _].
  - reflexivity.
  - apply (bool_decide_unpack _). vm_compute. exact I.
  - reflexivity.
  - rewrite Hpage. vm_compute. reflexivity.
Defined.

(** X19.  Rebuild, then ask: after a rebuild that reported success, a
    question that is not blank is never answered with "does not exist";
    the retriever reads the collection as the rebuild left it, and the
    page lists the sources that were requested, also those that failed to
    load and those that were not ingested. *)
Theorem query_after_rebuild w sv g sources question st :
  let run := rebuild_vector_db w g sources st in
  let g' := snd (fst run) in
  let path := _get_collection_path (db_manager g) (current_topic g) in
  fst (fst run) = "Vector database rebuilt successfully!" ->
  blank question = false ->
  fst (query_restaurant w sv g' question (snd run))
  = query_outcome sv (collection_content (snd run) path) sources question.
Proof.
  intros run g' path Hstatus Hq. subst run g'.
  rewrite rebuild_vector_db_run in *.
  pose proof (rebuild_ok_present w (db_manager g) (current_topic g) sources
                (Some rebuild_metadata) st) as Hpresent.
  destruct (create_or_update_collection w (db_manager g) (current_topic g)
              sources (Some rebuild_metadata) st) as [[retriever|e] st'].
  - cbn [fst snd] in *. destruct (Hpresent retriever eq_refl) as [Hinit Hin].
    by rewrite (query_restaurant_run w sv
                  (mkGlobals (db_manager g) sources (current_topic g))
                  question st' Hq Hin Hinit).
  - cbn [fst snd] in Hstatus. discriminate Hstatus.
Qed.

Lemma query_after_rebuild_witness :
  let run := rebuild_vector_db sample_world sample_globals ["missing.txt"]
               sample_state in
  fst (query_restaurant sample_world sample_services (snd (fst run))
         "Is the pizza good?" (snd run))
  = response_page "The pizza is praised." ["missing.txt"].
Proof.
  intros run. subst run.
  etrans.
  - apply (query_after_rebuild sample_world sample_services sample_globals
             ["missing.txt"] "Is the pizza good?" sample_state);
      reflexivity.
  - vm_compute. reflexivity.
Defined.

(** ** The configuration *)

(** X20.  Without a [secrets.env] file, [load_config] leaves the
    environment as it is, prints the warning, and returns for each of the
    two settings the value of its environment variable when it is set and
    the built-in default otherwise. *)
Theorem load_config_without_file load_dotenv env_path on_disk environ :
  env_path ∉ on_disk ->
  load_config load_dotenv env_path on_disk environ =
  (<["ollama_base_url" :=
       default "http://localhost:11434" (environ !! "OLLAMA_BASE_URL")]>
     (<["ollama_model" :=
          default "mistral:latest" (environ !! "OLLAMA_MODEL")]> ∅),
   environ,
   ["Warning: No environment config found - using only OS environment variables"]).
Proof.
  intros Hmissing. unfold load_config, os_getenv.
  rewrite (bool_decide_eq_false_2 _ Hmissing).
  by destruct (environ !! "OLLAMA_BASE_URL"), (environ !! "OLLAMA_MODEL").
Qed.

Lemma load_config_without_file_witness :
  fst (fst (load_config (fun _ e => e) "/srv/config/secrets.env" ∅
              {[ "OLLAMA_MODEL" := "llama3" ]}))
  = <["ollama_base_url" := "http://localhost:11434"]>
      (<["ollama_model" := "llama3"]> ∅).
Proof.
  rewrite (load_config_without_file (fun _ e => e) "/srv/config/secrets.env"
             ∅ {[ "OLLAMA_MODEL" := "llama3" ]}).
  - vm_compute. reflexivity.
  - apply not_elem_of_empty.
Defined.

(** ** End to end *)

(** X21.  A first rebuild from one readable text file: when the topic's
    storage location is absent and the engine opens the collection and
    accepts the batch, [rebuild_vector_db] reports success, remembers the
    source, and the collection gains exactly the file's document (the whole
    file as content, the resolved path as source), added in one ingestion. *)
Theorem fresh_text_rebuild w g p st content :
  let path := _get_collection_path (db_manager g) (current_topic g) in
  let file_path := resolve w p in
  let doc := mkDocument content
               (<["source" := SStr file_path]> (<["type" := SStr "text"]> ∅))
               "text_0" in
  let run := rebuild_vector_db w g [p] st in
  path ∉ disk st ->
  resolve_error w p = None ->
  file_path ∈ disk st ->
  endswith file_path ".txt" = true ->
  read_text w file_path = Ok content ->
  chroma_init_error w path = None ->
  chroma_add_error w path [doc] = None ->
  fst (fst run) = "Vector database rebuilt successfully!"
  /\ current_sources (snd (fst run)) = [p]
  /\ path ∈ disk (snd run)
  /\ collection_content (snd run) path
     = (collection_content st path ++ [doc])%list
  /\ ingestions (snd run) = (ingestions st ++ [(path, [doc])])%list.
Proof.
  intros path file_path doc run Habsent Hres Hthere Htxt Hread Hinit Hadd.
  subst run. rewrite rebuild_vector_db_run.
  destruct (create_or_update_collection_run w (db_manager g) (current_topic g)
              [p] (Some rebuild_metadata) st) as (l & _ & Hrun).
  fold path in Hrun.
  assert (Hdocs : flat_map (loaded w (disk st)) [p] = [doc]).
  { cbn [flat_map]. unfold loaded. rewrite <- load_document_result.
    pose proof (txt_is_not_pdf _ Htxt) as Hpdf.
    pose proof (txt_is_not_json _ Htxt) as Hjson.
    subst file_path. run. rewrite Hres. simpl.
    by rewrite (bool_decide_eq_true_2 _ Hthere), Hpdf, Hjson, Htxt, Hread. }
  rewrite Hdocs, Hinit in Hrun.
  rewrite (bool_decide_eq_false_2 _ Habsent) in Hrun.
  cbn [negb andb truthy] in Hrun. rewrite Hadd in Hrun. rewrite Hrun.
  cbn [fst snd current_sources disk ingestions].
  split; [reflexivity|]. split; [reflexivity|]. split.
  { apply elem_of_union_l. by apply elem_of_singleton. }
  split; [|reflexivity].
  unfold collection_content at 1. cbn [chroma]. by rewrite lookup_insert_eq.
Qed.

Lemma fresh_text_rebuild_witness :
  let run := rebuild_vector_db library_world sample_globals ["notes.txt"]
               library_state in
  fst (fst run) = "Vector database rebuilt successfully!"
  /\ current_sources (snd (fst run)) = ["notes.txt"]
  /\ "./vector_dbs/restaurant_reviews" ∈ disk (snd run)
  /\ collection_content (snd run) "./vector_dbs/restaurant_reviews"
     = [mkDocument "Great pizza, slow service."
          (<["source" := SStr "/srv/app/notes.txt"]>
             (<["type" := SStr "text"]> ∅))
          "text_0"]
  /\ ingestions (snd run)
     = [("./vector_dbs/restaurant_reviews",
         [mkDocument "Great pizza, slow service."
            (<["source" := SStr "/srv/app/notes.txt"]>
               (<["type" := SStr "text"]> ∅))
            "text_0"])].
Proof.
  intros run.
  apply (fresh_text_rebuild library_world sample_globals "notes.txt"
           library_state "Great pizza, slow service.").
  - apply (bool_decide_unpack _). vm_compute. exact I.
  - reflexivity.
  - apply (bool_decide_unpack _). vm_compute. exact I.
  - reflexivity.
  - reflexivity.
  - reflexivity.
  - reflexivity.
Defined.
